(** * The trust bundle of nih (package [trust], file [trust/bundle.go])

    A shallow embedding of the chain validator, the bundle constructor, the
    PEM loaders and the TLS configuration of package [trust], and the
    properties its specification states about them.

    The Go standard library ([os], [encoding/pem], [crypto/x509]) is not part
    of the package.  Its operations are the fields of the class [Platform];
    every general theorem holds for every platform.  [refPlatform] is one
    small executable platform, used to run the package on concrete inputs. *)

From Stdlib Require Import List String Ascii ZArith Bool Arith Lia.
From Stdlib.Strings Require Import Byte.
From Stdlib Require Import DecimalString.
From Equations Require Import Equations.
Import ListNotations.
Local Open Scope string_scope.

(* ===================================================================== *)
(** * Go values *)
(* ===================================================================== *)

(** [[]byte]. *)
Definition bytes := list byte.

(** A Go [error] value that is not nil.  [errors.New(msg)] and
    [fmt.Errorf(prefix + "%w", cause)], whose message is the prefix followed
    by the message of the wrapped cause. *)
Inductive error : Type :=
| errors_New (msg : string)
| fmt_Errorf_w (prefix : string) (cause : error).

(** The [Error()] method. *)
Fixpoint Error (e : error) : string :=
  match e with
  | errors_New msg => msg
  | fmt_Errorf_w prefix cause => prefix ++ Error cause
  end.

(** The [%d] verb on a non-negative index. *)
Definition itoa (n : nat) : string := NilZero.string_of_uint (Nat.to_uint n).

(** What a library call with results [(T, error)] returns. *)
Inductive res (A : Type) : Type :=
| Val (a : A)
| Fail (e : error).
Arguments Val {A} a.
Arguments Fail {A} e.

(** What a function of the package does: return a value with a nil error,
    return a non-nil error, or panic at run time. *)
Inductive result (A : Type) : Type :=
| Ok (a : A)
| Err (e : error)
| Panic (msg : string).
Arguments Ok {A} a.
Arguments Err {A} e.
Arguments Panic {A} msg.

Definition bind {A B} (r : result A) (k : A -> result B) : result B :=
  match r with
  | Ok a => k a
  | Err e => Err e
  | Panic m => Panic m
  end.

Definition lift {A} (r : res A) : result A :=
  match r with
  | Val a => Ok a
  | Fail e => Err e
  end.

Notation "x <- r ;; k" := (bind r (fun x => k))
  (at level 61, r at next level, right associativity).

(** A function of the package whose only result is an [error] and which
    cannot panic returns [option error]: [None] is nil. *)

(* ===================================================================== *)
(** * crypto/x509 data *)
(* ===================================================================== *)

(** [x509.KeyUsage]: a bit mask, [1 << iota]. *)
Definition KeyUsage := Z.
Definition KeyUsageDigitalSignature : KeyUsage := Z.shiftl 1 0.
Definition KeyUsageContentCommitment : KeyUsage := Z.shiftl 1 1.
Definition KeyUsageKeyEncipherment : KeyUsage := Z.shiftl 1 2.
Definition KeyUsageDataEncipherment : KeyUsage := Z.shiftl 1 3.
Definition KeyUsageKeyAgreement : KeyUsage := Z.shiftl 1 4.
Definition KeyUsageCertSign : KeyUsage := Z.shiftl 1 5.
Definition KeyUsageCRLSign : KeyUsage := Z.shiftl 1 6.
Definition KeyUsageEncipherOnly : KeyUsage := Z.shiftl 1 7.
Definition KeyUsageDecipherOnly : KeyUsage := Z.shiftl 1 8.

(** [x509.ExtKeyUsage], in the order of its constants. *)
Inductive ExtKeyUsage : Type :=
| ExtKeyUsageAny
| ExtKeyUsageServerAuth
| ExtKeyUsageClientAuth
| ExtKeyUsageCodeSigning
| ExtKeyUsageEmailProtection
| ExtKeyUsageIPSECEndSystem
| ExtKeyUsageIPSECTunnel
| ExtKeyUsageIPSECUser
| ExtKeyUsageTimeStamping
| ExtKeyUsageOCSPSigning
| ExtKeyUsageMicrosoftServerGatedCrypto
| ExtKeyUsageNetscapeServerGatedCrypto
| ExtKeyUsageMicrosoftCommercialCodeSigning
| ExtKeyUsageMicrosoftKernelCodeSigning.

(** [crypto.PublicKey], as its encoded key material. *)
Definition PublicKey := bytes.

(** The fields of [x509.Certificate] the package and path validation read.
    The fields [PublicKey], [KeyUsage] and [ExtKeyUsage] are [PublicKeyOf],
    [KeyUsageOf] and [ExtKeyUsageOf] here, beside the types of those names.
    A chain holds certificates, never nil pointers. *)
Record Certificate : Type := {
  Raw : bytes;
  Signature : bytes;
  PublicKeyOf : PublicKey;
  Issuer : string;
  Subject : string;
  KeyUsageOf : KeyUsage;
  ExtKeyUsageOf : list ExtKeyUsage;
  BasicConstraintsValid : bool;
  IsCA : bool
}.

(** [crypto.Signer]: the method [Public()]. *)
Record Signer : Type := {
  Public : PublicKey
}.

(** The dynamic type of the [any] that [x509.ParsePKCS8PrivateKey] returns:
    a key that implements [crypto.Signer] (RSA, ECDSA, Ed25519) or one that
    does not (an X25519 [*ecdh.PrivateKey]). *)
Inductive any_key : Type :=
| SigningKey (s : Signer)
| OtherKey.

(** [pem.Block]. *)
Record pem_Block : Type := {
  Type_ : string;
  Bytes : bytes
}.

(* ===================================================================== *)
(** * ChainValidator: the policy checks that read one certificate *)
(* ===================================================================== *)

Definition validateCertificate (c : Certificate) : option error :=
  if negb (BasicConstraintsValid c) then
    Some (errors_New "basic constraints invalid")
  else None.

(** The loop of [validateLeaf] over [c.ExtKeyUsage]: the state is the pair
    [(clientAuth, serverAuth)]; the switch has no default case. *)
Definition scanExtKeyUsage (us : list ExtKeyUsage) : bool * bool :=
  fold_left
    (fun st u =>
       match u with
       | ExtKeyUsageClientAuth => (true, snd st)
       | ExtKeyUsageServerAuth => (fst st, true)
       | _ => st
       end)
    us (false, false).

Definition validateLeaf (c : Certificate) : option error :=
  match validateCertificate c with
  | Some err => Some err
  | None =>
    if IsCA c then Some (errors_New "is a CA")
    else if negb (KeyUsageOf c =? KeyUsageDigitalSignature)%Z then
      Some (errors_New "invalid key usage")
    else
      let '(clientAuth, serverAuth) := scanExtKeyUsage (ExtKeyUsageOf c) in
      if negb (clientAuth && serverAuth) then
        Some (errors_New "invalid extended key usage")
      else None
  end.

(* ===================================================================== *)
(** * The standard library the package calls *)
(* ===================================================================== *)

(** [x509.VerifyOptions], with the two fields the package sets; a nil
    [*x509.CertPool] is [None]. *)
Record VerifyOptions (Pool : Type) : Type := {
  Intermediates : option Pool;
  Roots : option Pool
}.
Arguments Intermediates {Pool} _.
Arguments Roots {Pool} _.

(** The calls into [os], [encoding/pem] and [crypto/x509], with the two facts
    about them that the package relies on: [pem.Decode] returns a remainder
    shorter than its input when it finds a block, and [x509.ParseCertificates]
    of no bytes is no certificate and no error.  [Verify] is the
    method Verify of x509.Certificate; the package discards the chains it
    returns and keeps the error. *)
Class Platform : Type := {
  CertPool : Type;
  x509_NewCertPool : CertPool;
  AddCert : CertPool -> Certificate -> CertPool;
  Verify : Certificate -> VerifyOptions CertPool -> option error;
  x509_ParseCertificate : bytes -> res Certificate;
  x509_ParseCertificates : bytes -> res (list Certificate);
  x509_ParseCertificates_empty : x509_ParseCertificates [] = Val [];
  x509_ParsePKCS8PrivateKey : bytes -> res any_key;
  pem_Decode : bytes -> option pem_Block * bytes;
  pem_Decode_rest :
    forall data blk rest,
      pem_Decode data = (Some blk, rest) ->
      List.length rest < List.length data;
  os_ReadFile : string -> res bytes
}.

(** crypto/tls. *)
Inductive ClientAuthType : Type :=
| NoClientCert
| RequestClientCert
| RequireAnyClientCert
| VerifyClientCertIfGiven
| RequireAndVerifyClientCert.

(** [requiresClientCert] of crypto/tls: the server aborts the handshake
    when the client sends no certificate. *)
Definition requiresClientCert (c : ClientAuthType) : bool :=
  match c with
  | RequireAnyClientCert | RequireAndVerifyClientCert => true
  | _ => false
  end.

Definition VersionTLS12 : Z := 0x0303.
Definition VersionTLS13 : Z := 0x0304.

(** [tls.Certificate]; the field [Certificate] is [Certificate_] here. *)
Record tls_Certificate : Type := {
  Certificate_ : list bytes;
  PrivateKey : Signer;
  Leaf : option Certificate
}.

Record tls_ClientHelloInfo : Type := {
  ServerName : string;
  SupportedVersions : list Z
}.

Record tls_CertificateRequestInfo : Type := {
  AcceptableCAs : list bytes;
  Version : Z
}.

(** The fields of [tls.Config] that [TLSConfig] sets; every other field
    keeps its zero value. *)
Record tls_Config : Type := {
  GetCertificate : tls_ClientHelloInfo -> res tls_Certificate;
  GetClientCertificate : tls_CertificateRequestInfo -> res tls_Certificate;
  VerifyPeerCertificate : list bytes -> list (list Certificate) -> result unit;
  ClientAuth : ClientAuthType;
  InsecureSkipVerify : bool;
  MinVersion : Z
}.

(** A value together with the equation that it is this value: keeps the
    result of [pem_Decode] in scope for the termination proofs below. *)
Definition inspect {A} (a : A) : {b : A | a = b} := exist _ a eq_refl.

(* ===================================================================== *)
(** * Package trust *)
(* ===================================================================== *)

Section Trust.

Context {P : Platform}.

Record Bundle : Type := {
  cert : tls_Certificate;
  roots : CertPool
}.

(** ** ChainValidator *)

Definition verifyCA (c : Certificate) (roots : CertPool) : option error :=
  if negb (IsCA c) then Some (errors_New "not a CA")
  else if negb (KeyUsageOf c =? KeyUsageCertSign)%Z then
    Some (errors_New "invalid key usage")
  else if negb (List.length (ExtKeyUsageOf c) =? 0)%nat then
    Some (errors_New "invalid extended key usage")
  else Verify c {| Intermediates := None; Roots := Some roots |}.

Definition verifyIntermediate (c : Certificate) (roots : CertPool)
  : option error :=
  match validateCertificate c with
  | Some err => Some err
  | None =>
    match verifyCA c roots with
    | Some err => Some err
    | None => None
    end
  end.

Definition verifyRoot (c : Certificate) : option error :=
  match validateCertificate c with
  | Some err => Some err
  | None =>
    let self := AddCert x509_NewCertPool c in
    match verifyCA c self with
    | Some err => Some err
    | None => None
    end
  end.

(** The loop of [verifyChain] over [chain[1:]]: [i] is the loop index and
    [intermediates] the pool built so far. *)
Fixpoint verifyIntermediates (i : nat) (cs : list Certificate)
    (roots : CertPool) (intermediates : CertPool) : result CertPool :=
  match cs with
  | [] => Ok intermediates
  | c :: cs' =>
    match verifyIntermediate c roots with
    | Some err => Err (fmt_Errorf_w ("chain[" ++ itoa (i + 1) ++ "]: ") err)
    | None => verifyIntermediates (S i) cs' roots (AddCert intermediates c)
    end
  end.

(** [chain[0]] of an empty slice is a run-time panic. *)
Definition verifyChain (chain : list Certificate) (roots : CertPool)
  : result Certificate :=
  match chain with
  | [] => Panic "runtime error: index out of range [0] with length 0"
  | chain0 :: tail =>
    match validateLeaf chain0 with
    | Some err => Err (fmt_Errorf_w "chain[0]: " err)
    | None =>
      intermediates <-
        (if (1 <? List.length chain)%nat then
           pool <- verifyIntermediates 0 tail roots x509_NewCertPool ;;
           Ok (Some pool)
         else Ok None) ;;
      match Verify chain0 {| Intermediates := intermediates;
                             Roots := Some roots |} with
      | Some err => Err err
      | None => Ok chain0
      end
    end
  end.

(** ** TrustBundle *)

(** The first loop of [NewBundle], over [roots] with index [i]. *)
Fixpoint verifyRoots (i : nat) (roots : list Certificate) : result unit :=
  match roots with
  | [] => Ok tt
  | c :: roots' =>
    match verifyRoot c with
    | Some err => Err (fmt_Errorf_w ("trust: root[" ++ itoa i ++ "]: ") err)
    | None => verifyRoots (S i) roots'
    end
  end.

Definition NewBundle (chain : list Certificate) (signer : Signer)
    (roots : list Certificate) : result Bundle :=
  if (List.length chain =? 0)%nat then Err (errors_New "trust: empty chain")
  else if (List.length roots =? 0)%nat then Err (errors_New "trust: empty roots")
  else
    _ <- verifyRoots 0 roots ;;
    let rootPool := fold_left AddCert roots x509_NewCertPool in
    match verifyChain chain rootPool with
    | Err err => Err (fmt_Errorf_w "trust: " err)
    | Panic msg => Panic msg
    | Ok leaf =>
      Ok {| cert := {| Certificate_ := map Raw chain;
                       PrivateKey := signer;
                       Leaf := Some leaf |};
            roots := rootPool |}
    end.

(** ** Loading PEM files *)

(** The loop of [LoadCertificates]: [der] collects the bytes of the
    CERTIFICATE blocks of [contents], in file order. *)
Equations? collectCertificates (contents : bytes) (der : bytes) : bytes
  by wf (List.length contents) lt :=
  collectCertificates contents der with inspect (pem_Decode contents) := {
    | exist _ (None, _) _ => der
    | exist _ (Some blk, rest) _ =>
        if negb (Type_ blk =? "CERTIFICATE")%string then collectCertificates rest der
        else collectCertificates rest (der ++ Bytes blk)%list }.
Proof. all: eapply pem_Decode_rest; eassumption. Qed.

Definition LoadCertificates (name : string) : result (list Certificate) :=
  match os_ReadFile name with
  | Fail err => Err err
  | Val contents => lift (x509_ParseCertificates (collectCertificates contents []))
  end.

Definition LoadPrivateKey (name : string) : result Signer :=
  match os_ReadFile name with
  | Fail err => Err err
  | Val contents =>
    match fst (pem_Decode contents) with
    | None =>
      Err (errors_New ("trust: load " ++ name ++ ": no private key found"))
    | Some blk =>
      if negb (Type_ blk =? "PRIVATE KEY")%string then
        Err (errors_New ("trust: load " ++ name ++ ": no private key found"))
      else
        match x509_ParsePKCS8PrivateKey (Bytes blk) with
        | Fail err => Err err
        | Val (SigningKey key) => Ok key
        | Val OtherKey =>
          Panic "interface conversion: key is not crypto.Signer: missing method Sign"
        end
    end
  end.

Definition LoadPEM (certFile keyFile caFile : string) : result Bundle :=
  chain <- LoadCertificates certFile ;;
  signer <- LoadPrivateKey keyFile ;;
  roots <- LoadCertificates caFile ;;
  NewBundle chain signer roots.

(** ** TLSConfigAdapter *)

Definition getCertificate (b : Bundle) (_ : tls_ClientHelloInfo)
  : res tls_Certificate := Val (cert b).

Definition getClientCertificate (b : Bundle) (_ : tls_CertificateRequestInfo)
  : res tls_Certificate := Val (cert b).

(** The loop of [verifyPeerCertificate] over [rawCerts]. *)
Fixpoint parseRawCerts (rawCerts : list bytes) (chain : list Certificate)
  : result (list Certificate) :=
  match rawCerts with
  | [] => Ok chain
  | raw :: rawCerts' =>
    match x509_ParseCertificate raw with
    | Fail err => Err err
    | Val crt => parseRawCerts rawCerts' (chain ++ [crt])%list
    end
  end.

Definition verifyPeerCertificate (b : Bundle) (rawCerts : list bytes)
    (_ : list (list Certificate)) : result unit :=
  chain <- parseRawCerts rawCerts [] ;;
  _ <- verifyChain chain (roots b) ;;
  Ok tt.

Definition TLSConfig (b : Bundle) : tls_Config :=
  {| GetCertificate := getCertificate b;
     GetClientCertificate := getClientCertificate b;
     VerifyPeerCertificate := verifyPeerCertificate b;
     ClientAuth := RequireAnyClientCert;
     InsecureSkipVerify := true;
     MinVersion := VersionTLS13 |}.

(** ** The blocks of a file, as repeated [pem.Decode] yields them *)

Equations? pemBlocks (contents : bytes) : list pem_Block
  by wf (List.length contents) lt :=
  pemBlocks contents with inspect (pem_Decode contents) := {
    | exist _ (None, _) _ => []
    | exist _ (Some blk, rest) _ => blk :: pemBlocks rest }.
Proof. eapply pem_Decode_rest; eassumption. Qed.

End Trust.

(* ===================================================================== *)
(** * The vocabulary of the properties *)
(* ===================================================================== *)

(** The leaf policy in the specification's words: basic constraints valid,
    not a CA, key usage exactly digitalSignature, client-auth and
    server-auth both present, and no extended key usage beyond these two. *)
Definition leafPolicy_spec (c : Certificate) : Prop :=
  BasicConstraintsValid c = true
  /\ IsCA c = false
  /\ KeyUsageOf c = KeyUsageDigitalSignature
  /\ In ExtKeyUsageClientAuth (ExtKeyUsageOf c)
  /\ In ExtKeyUsageServerAuth (ExtKeyUsageOf c)
  /\ (forall u, In u (ExtKeyUsageOf c) ->
                u = ExtKeyUsageClientAuth \/ u = ExtKeyUsageServerAuth).

(** The leaf policy that [validateLeaf] enforces: as above, without the last
    clause. *)
Definition leafPolicy (c : Certificate) : Prop :=
  BasicConstraintsValid c = true
  /\ IsCA c = false
  /\ KeyUsageOf c = KeyUsageDigitalSignature
  /\ In ExtKeyUsageClientAuth (ExtKeyUsageOf c)
  /\ In ExtKeyUsageServerAuth (ExtKeyUsageOf c).

(** The signer is bound to the certificate: its public key is the
    certificate's. *)
Definition keyBound (signer : Signer) (c : Certificate) : Prop :=
  Public signer = PublicKeyOf c.

Section Vocabulary.

Context {P : Platform}.

(** The options of the last step of [verifyChain]: the intermediates pool
    stays nil when the chain is the leaf alone. *)
Definition chainOptions (tail : list Certificate) (roots : CertPool)
  : VerifyOptions CertPool :=
  {| Intermediates :=
       match tail with
       | [] => None
       | _ :: _ => Some (fold_left AddCert tail x509_NewCertPool)
       end;
     Roots := Some roots |}.

(** The CA policy, read against a pool. *)
Definition caPolicy (c : Certificate) (pool : CertPool) : Prop :=
  BasicConstraintsValid c = true
  /\ IsCA c = true
  /\ KeyUsageOf c = KeyUsageCertSign
  /\ ExtKeyUsageOf c = []
  /\ Verify c {| Intermediates := None; Roots := Some pool |} = None.

(** The bundle [b] with another private key. *)
Definition withPrivateKey (b : Bundle) (signer : Signer) : Bundle :=
  {| cert := {| Certificate_ := Certificate_ (cert b);
                PrivateKey := signer;
                Leaf := Leaf (cert b) |};
     roots := roots b |}.

(** A block of type CERTIFICATE, as [LoadCertificates] tests it. *)
Definition isCertificate (blk : pem_Block) : bool :=
  (Type_ blk =? "CERTIFICATE")%string.

(** The key file in the specification's words: one private-key block, first
    in the file, and nothing after it. *)
Definition keyFile_spec (contents : bytes) : Prop :=
  exists blk,
    pem_Decode contents = (Some blk, [])
    /\ Type_ blk = "PRIVATE KEY".

Definition noPrivateKey (name : string) : error :=
  errors_New ("trust: load " ++ name ++ ": no private key found").

End Vocabulary.

(* ===================================================================== *)
(** * A reference platform *)
(* ===================================================================== *)

(** One executable platform.  Its encodings are small stand-ins for the
    real ones: a PEM block is a tag byte (1 for CERTIFICATE, 2 for
    PRIVATE KEY, 3 for PUBLIC KEY), a length byte and that many payload
    bytes; the certificate parser knows the certificates of a registry by
    their [Raw] bytes; a PKCS #8 key is a kind byte (1 for a signing key,
    2 for a key that cannot sign) before the public key; the signature of a
    certificate is the public key of the certificate that signed it. *)
Module Ref.

Fixpoint bytes_eqb (a b : bytes) : bool :=
  match a, b with
  | [], [] => true
  | x :: a', y :: b' => Byte.eqb x y && bytes_eqb a' b'
  | _, _ => false
  end.

Fixpoint hasPrefix (p d : bytes) : bool :=
  match p, d with
  | [], _ => true
  | x :: p', y :: d' => Byte.eqb x y && hasPrefix p' d'
  | _ :: _, [] => false
  end.

Definition blockType (tag : byte) : option string :=
  match Byte.to_nat tag with
  | 1 => Some "CERTIFICATE"
  | 2 => Some "PRIVATE KEY"
  | 3 => Some "PUBLIC KEY"
  | _ => None
  end.

Definition Decode (data : bytes) : option pem_Block * bytes :=
  match data with
  | tag :: len :: payload =>
    match blockType tag with
    | Some ty =>
      if (Byte.to_nat len <=? List.length payload)%nat then
        (Some {| Type_ := ty; Bytes := firstn (Byte.to_nat len) payload |},
         skipn (Byte.to_nat len) payload)
      else (None, data)
    | None => (None, data)
    end
  | _ => (None, data)
  end.

Definition Decode_rest (data : bytes) (blk : pem_Block) (rest : bytes)
  (H : Decode data = (Some blk, rest)) : List.length rest < List.length data.
Proof.
  destruct data as [|tag [|len payload]]; simpl in H; try discriminate.
  destruct (blockType tag); try discriminate.
  destruct (Byte.to_nat len <=? List.length payload)%nat; try discriminate.
  injection H as _ <-. simpl. rewrite length_skipn. lia.
Defined.

Section Registry.

(** The certificates the parser knows, and the files that exist. *)
Variable known : list Certificate.
Variable files : list (string * bytes).

Definition ParseCertificate (der : bytes) : res Certificate :=
  match find (fun c => bytes_eqb (Raw c) der) known with
  | Some c => Val c
  | None => Fail (errors_New "x509: malformed certificate")
  end.

Fixpoint parseAll (fuel : nat) (der : bytes) : res (list Certificate) :=
  match der with
  | [] => Val []
  | _ :: _ =>
    match fuel with
    | 0 => Fail (errors_New "x509: malformed certificate")
    | S fuel' =>
      match find (fun c => negb (bytes_eqb (Raw c) []) && hasPrefix (Raw c) der)
                 known with
      | None => Fail (errors_New "x509: malformed certificate")
      | Some c =>
        match parseAll fuel' (skipn (List.length (Raw c)) der) with
        | Val cs => Val (c :: cs)
        | Fail e => Fail e
        end
      end
    end
  end.

Definition ParseCertificates (der : bytes) : res (list Certificate) :=
  parseAll (List.length der) der.

Definition ParsePKCS8PrivateKey (der : bytes) : res any_key :=
  match der with
  | kind :: pub =>
    match Byte.to_nat kind with
    | 1 => Val (SigningKey {| Public := pub |})
    | 2 => Val OtherKey
    | _ => Fail (errors_New "x509: failed to parse private key")
    end
  | [] => Fail (errors_New "x509: failed to parse private key")
  end.

Definition ReadFile (name : string) : res bytes :=
  match find (fun f => (fst f =? name)%string) files with
  | Some f => Val (snd f)
  | None => Fail (errors_New ("open " ++ name ++ ": no such file or directory"))
  end.

(** A pool is the list of its certificates; adding one twice adds it once. *)
Definition Pool := list Certificate.

Definition addCert (s : Pool) (c : Certificate) : Pool :=
  if existsb (fun d => bytes_eqb (Raw d) (Raw c)) s then s else (s ++ [c])%list.

Definition signedBy (c parent : Certificate) : bool :=
  (Issuer c =? Subject parent)%string
  && bytes_eqb (Signature c) (PublicKeyOf parent).

(** A path from [c] to a root through at most [fuel] intermediates, each of
    them a CA. *)
Fixpoint buildChain (roots inter : Pool) (fuel : nat) (c : Certificate) : bool :=
  existsb (signedBy c) roots
  || match fuel with
     | 0 => false
     | S fuel' =>
       existsb (fun i => signedBy c i && BasicConstraintsValid i && IsCA i
                         && buildChain roots inter fuel' i) inter
     end.

Definition pathValidate (c : Certificate) (opts : VerifyOptions Pool)
  : option error :=
  let roots := match Roots opts with Some r => r | None => [] end in
  let inter := match Intermediates opts with Some i => i | None => [] end in
  if buildChain roots inter (List.length inter) c then None
  else Some (errors_New "x509: certificate signed by unknown authority").

Definition platform : Platform :=
  {| CertPool := Pool;
     x509_NewCertPool := [];
     AddCert := addCert;
     Verify := pathValidate;
     x509_ParseCertificate := ParseCertificate;
     x509_ParseCertificates := ParseCertificates;
     x509_ParseCertificates_empty := eq_refl;
     x509_ParsePKCS8PrivateKey := ParsePKCS8PrivateKey;
     pem_Decode := Decode;
     pem_Decode_rest := Decode_rest;
     os_ReadFile := ReadFile |}.

End Registry.

(** *** Credentials as [trustgen] mints them: a root, an intermediate signed
    by the root, a leaf signed by the intermediate. *)

Definition rootCert : Certificate :=
  {| Raw := [x10]; Signature := [xa0]; PublicKeyOf := [xa0];
     Issuer := "root"; Subject := "root";
     KeyUsageOf := KeyUsageCertSign; ExtKeyUsageOf := [];
     BasicConstraintsValid := true; IsCA := true |}.

Definition intCert : Certificate :=
  {| Raw := [x11]; Signature := [xa0]; PublicKeyOf := [xa1];
     Issuer := "root"; Subject := "intermediate";
     KeyUsageOf := KeyUsageCertSign; ExtKeyUsageOf := [];
     BasicConstraintsValid := true; IsCA := true |}.

Definition leafCert : Certificate :=
  {| Raw := [x12]; Signature := [xa1]; PublicKeyOf := [xa2];
     Issuer := "intermediate"; Subject := "leaf";
     KeyUsageOf := KeyUsageDigitalSignature;
     ExtKeyUsageOf := [ExtKeyUsageClientAuth; ExtKeyUsageServerAuth];
     BasicConstraintsValid := true; IsCA := false |}.

Definition leafKey : Signer := {| Public := [xa2] |}.

(** A signer whose public key is not the leaf's. *)
Definition strangerKey : Signer := {| Public := [xb7] |}.

(** The leaf with one more extended key usage. *)
Definition leafCodeSigning : Certificate :=
  {| Raw := [x13]; Signature := [xa1]; PublicKeyOf := [xa2];
     Issuer := "intermediate"; Subject := "leaf";
     KeyUsageOf := KeyUsageDigitalSignature;
     ExtKeyUsageOf := [ExtKeyUsageClientAuth; ExtKeyUsageServerAuth;
                       ExtKeyUsageCodeSigning];
     BasicConstraintsValid := true; IsCA := false |}.

(** The changes the tests of the package make to a certificate. *)
Definition withIsCA (c : Certificate) (v : bool) : Certificate :=
  {| Raw := Raw c; Signature := Signature c; PublicKeyOf := PublicKeyOf c;
     Issuer := Issuer c; Subject := Subject c;
     KeyUsageOf := KeyUsageOf c; ExtKeyUsageOf := ExtKeyUsageOf c;
     BasicConstraintsValid := BasicConstraintsValid c; IsCA := v |}.

Definition withBasicConstraintsValid (c : Certificate) (v : bool)
  : Certificate :=
  {| Raw := Raw c; Signature := Signature c; PublicKeyOf := PublicKeyOf c;
     Issuer := Issuer c; Subject := Subject c;
     KeyUsageOf := KeyUsageOf c; ExtKeyUsageOf := ExtKeyUsageOf c;
     BasicConstraintsValid := v; IsCA := IsCA c |}.

Definition withKeyUsage (c : Certificate) (v : KeyUsage) : Certificate :=
  {| Raw := Raw c; Signature := Signature c; PublicKeyOf := PublicKeyOf c;
     Issuer := Issuer c; Subject := Subject c;
     KeyUsageOf := v; ExtKeyUsageOf := ExtKeyUsageOf c;
     BasicConstraintsValid := BasicConstraintsValid c; IsCA := IsCA c |}.

Definition withExtKeyUsage (c : Certificate) (v : list ExtKeyUsage)
  : Certificate :=
  {| Raw := Raw c; Signature := Signature c; PublicKeyOf := PublicKeyOf c;
     Issuer := Issuer c; Subject := Subject c;
     KeyUsageOf := KeyUsageOf c; ExtKeyUsageOf := v;
     BasicConstraintsValid := BasicConstraintsValid c; IsCA := IsCA c |}.

Definition registry : list Certificate := [rootCert; intCert; leafCert].

(** PEM encodings in the reference format. *)
Definition certBlock (c : Certificate) : bytes :=
  x01 :: x01 :: Raw c.

Definition leafKeyBlock : bytes := [x02; x02; x01; xa2].

Definition publicKeyBlock : bytes := [x03; x01; xa2].

Definition files : list (string * bytes) :=
  [ ("cert.pem", certBlock leafCert ++ certBlock intCert);
    ("key.pem", leafKeyBlock);
    ("ca.pem", certBlock rootCert);
    ("leaf-as-ca.pem", certBlock leafCert);
    ("key-then-cert.pem", leafKeyBlock ++ certBlock leafCert);
    ("two-keys.pem", leafKeyBlock ++ leafKeyBlock);
    ("no-cert.pem", publicKeyBlock);
    ("empty.pem", []) ]%list.

Definition std : Platform := platform registry files.

End Ref.

(* ===================================================================== *)
(** * Package trustgen: the PEM encoders (file [trust/trustgen/trustgen.go]) *)
(* ===================================================================== *)

(** The two library calls of the encoders.  [pem_Encode] is the bytes that
    [pem.Encode] writes to its buffer, or the error it returns before
    writing; [pem.EncodeToMemory] is the same call, with nil for an
    error. *)
Class Encoder : Type := {
  pem_Encode : pem_Block -> res bytes;
  x509_MarshalPKCS8PrivateKey : Signer -> res bytes
}.

Section Trustgen.

Context {E : Encoder}.

Definition pem_EncodeToMemory (b : pem_Block) : bytes :=
  match pem_Encode b with
  | Val data => data
  | Fail _ => []
  end.

(** The loop of [PEMEncodeCertificates]: [b] is the buffer. *)
Fixpoint encodeCertificates (certs : list Certificate) (b : bytes)
  : result bytes :=
  match certs with
  | [] => Ok b
  | cert :: certs' =>
    match pem_Encode {| Type_ := "CERTIFICATE"; Bytes := Raw cert |} with
    | Fail err => Panic (Error err)
    | Val data => encodeCertificates certs' (b ++ data)%list
    end
  end.

Definition PEMEncodeCertificates (certs : list Certificate) : result bytes :=
  encodeCertificates certs [].

Definition PEMEncodePrivateKey (key : Signer) : result bytes :=
  match x509_MarshalPKCS8PrivateKey key with
  | Fail err => Panic (Error err)
  | Val bytes =>
    Ok (pem_EncodeToMemory {| Type_ := "PRIVATE KEY"; Bytes := bytes |})
  end.

End Trustgen.

(** The encoders of the reference platform, and a file system with two more
    key files. *)
Module RefGen.

Definition blockTag (ty : string) : option byte :=
  if (ty =? "CERTIFICATE")%string then Some x01
  else if (ty =? "PRIVATE KEY")%string then Some x02
  else if (ty =? "PUBLIC KEY")%string then Some x03
  else None.

Definition Encode (b : pem_Block) : res bytes :=
  match blockTag (Type_ b), Byte.of_nat (List.length (Bytes b)) with
  | Some tag, Some len => Val (tag :: len :: Bytes b)
  | _, _ => Fail (errors_New "pem: cannot encode block")
  end.

Definition MarshalPKCS8PrivateKey (key : Signer) : res bytes :=
  Val (x01 :: Public key).

Definition encoder : Encoder :=
  {| pem_Encode := Encode;
     x509_MarshalPKCS8PrivateKey := MarshalPKCS8PrivateKey |}.

(** A PRIVATE KEY block whose key cannot sign, and one whose bytes are no
    key. *)
Definition exchangeKeyBlock : bytes := [x02; x02; x02; xa2].

Definition brokenKeyBlock : bytes := [x02; x01; x09].

Definition files : list (string * bytes) :=
  (Ref.files
   ++ [ ("exchange-key.pem", exchangeKeyBlock);
        ("broken-key.pem", brokenKeyBlock) ])%list.

Definition std : Platform := Ref.platform Ref.registry files.

(** The bundle of the reference credentials. *)
Definition bundle : @Bundle Ref.std :=
  @Build_Bundle Ref.std
    {| Certificate_ := [Raw Ref.leafCert; Raw Ref.intCert];
       PrivateKey := Ref.leafKey;
       Leaf := Some Ref.leafCert |}
    [Ref.rootCert].

End RefGen.

(* ===================================================================== *)
(** * Properties of the leaf policy *)
(* ===================================================================== *)

Lemma scanExtKeyUsage_acc (us : list ExtKeyUsage) (st : bool * bool) :
  let r := fold_left
             (fun st u =>
                match u with
                | ExtKeyUsageClientAuth => (true, snd st)
                | ExtKeyUsageServerAuth => (fst st, true)
                | _ => st
                end) us st in
  (fst r = true <-> fst st = true \/ In ExtKeyUsageClientAuth us)
  /\ (snd r = true <-> snd st = true \/ In ExtKeyUsageServerAuth us).
Proof.
  revert st. induction us as [|u us IH]; intros st; simpl.
  - split; split; intros H; auto; destruct H as [H|[]]; exact H.
  - match goal with |- context [fold_left ?f us ?s] =>
      specialize (IH s); simpl in IH; destruct IH as [IH1 IH2]
    end.
    rewrite IH1, IH2. clear IH1 IH2.
    destruct st as [a b], u; simpl; split; split; intros H;
      repeat match goal with
             | H : _ \/ _ |- _ => destruct H
             | H : _ = _ |- _ => try discriminate H; try (left; exact H)
             end; auto.
Qed.

Lemma scanExtKeyUsage_spec (us : list ExtKeyUsage) :
  (fst (scanExtKeyUsage us) = true <-> In ExtKeyUsageClientAuth us)
  /\ (snd (scanExtKeyUsage us) = true <-> In ExtKeyUsageServerAuth us).
Proof.
  destruct (scanExtKeyUsage_acc us (false, false)) as [H1 H2].
  unfold scanExtKeyUsage. simpl in *. rewrite H1, H2.
  split; split; intros H; auto; destruct H as [H|H]; auto; discriminate.
Qed.

Lemma validateLeaf_None (c : Certificate) :
  validateLeaf c = None <-> leafPolicy c.
Proof.
  unfold validateLeaf, validateCertificate, leafPolicy.
  destruct (scanExtKeyUsage_spec (ExtKeyUsageOf c)) as [Hc Hs].
  destruct (BasicConstraintsValid c), (IsCA c); simpl;
    try (split; [discriminate | intros (? & ? & _); discriminate]).
  destruct (Z.eqb_spec (KeyUsageOf c) KeyUsageDigitalSignature) as [Hk|Hk];
    simpl; [| split; [discriminate | intros (_ & _ & ? & _); contradiction]].
  destruct (scanExtKeyUsage (ExtKeyUsageOf c)) as [ca sa]; simpl in *.
  destruct ca, sa; simpl; split; intros H;
    try discriminate; try reflexivity;
    try (repeat split; try assumption; try (apply Hc; reflexivity);
         try (apply Hs; reflexivity));
    destruct H as (_ & _ & _ & H1 & H2);
    try (apply Hc in H1; discriminate); try (apply Hs in H2; discriminate).
Qed.

(** C1, as the code has it.  [validateLeaf] succeeds exactly when basic
    constraints are valid, the certificate is not a CA, its key usage is
    exactly the digitalSignature bit, and its extended key usages contain
    client-auth and server-auth; values beyond these two are ignored.  On every
    other certificate it fails with the message of the first rule violated, in
    the order: basic constraints, CA flag, key usage, extended key usage. *)
Theorem validateLeaf_policy (c : Certificate) :
  (validateLeaf c = None <-> leafPolicy c)
  /\ (BasicConstraintsValid c = false ->
      validateLeaf c = Some (errors_New "basic constraints invalid"))
  /\ (BasicConstraintsValid c = true -> IsCA c = true ->
      validateLeaf c = Some (errors_New "is a CA"))
  /\ (BasicConstraintsValid c = true -> IsCA c = false ->
      KeyUsageOf c <> KeyUsageDigitalSignature ->
      validateLeaf c = Some (errors_New "invalid key usage"))
  /\ (BasicConstraintsValid c = true -> IsCA c = false ->
      KeyUsageOf c = KeyUsageDigitalSignature ->
      ~ (In ExtKeyUsageClientAuth (ExtKeyUsageOf c)
         /\ In ExtKeyUsageServerAuth (ExtKeyUsageOf c)) ->
      validateLeaf c = Some (errors_New "invalid extended key usage")).
Proof.
  split; [apply validateLeaf_None |].
  unfold validateLeaf, validateCertificate.
  repeat split.
  - intros ->. reflexivity.
  - intros -> ->. reflexivity.
  - intros -> -> Hk. simpl.
    destruct (Z.eqb_spec (KeyUsageOf c) KeyUsageDigitalSignature);
      [contradiction | reflexivity].
  - intros -> -> Hk Hn. simpl. rewrite Hk, Z.eqb_refl. simpl.
    destruct (scanExtKeyUsage_spec (ExtKeyUsageOf c)) as [Hc Hs].
    destruct (scanExtKeyUsage (ExtKeyUsageOf c)) as [[|] [|]]; simpl in *;
      try reflexivity.
    exfalso. apply Hn. split; [apply Hc | apply Hs]; reflexivity.
Qed.

(** C1, counterexample.  A leaf whose extended key usages are client-auth,
    server-auth and code-signing passes [validateLeaf], against the clause
    that no other value is allowed. *)
Lemma validateLeaf_accepts_extra_usage :
  validateLeaf Ref.leafCodeSigning = None
  /\ In ExtKeyUsageCodeSigning (ExtKeyUsageOf Ref.leafCodeSigning)
  /\ ~ leafPolicy_spec Ref.leafCodeSigning.
Proof.
  split; [reflexivity |]. split; [simpl; auto |].
  intros (_ & _ & _ & _ & _ & H).
  destruct (H ExtKeyUsageCodeSigning) as [E|E]; [simpl; auto | |]; discriminate E.
Qed.

(** The key usage test compares the whole mask: a certificate that passes
    has bit 0 set and no other bit. *)
Lemma KeyUsageDigitalSignature_bits (n : Z) :
  (0 <= n)%Z ->
  Z.testbit KeyUsageDigitalSignature n = (n =? 0)%Z.
Proof.
  intros Hn. unfold KeyUsageDigitalSignature. simpl.
  destruct (Z.eqb_spec n 0) as [->|Hne]; [reflexivity |].
  change 1%Z with (2 ^ 0)%Z. rewrite Z.pow2_bits_eqb by lia.
  destruct (Z.eqb_spec 0 n); [lia | reflexivity].
Qed.

(* ===================================================================== *)
(** * Properties of chain validation *)
(* ===================================================================== *)

Section ChainValidator.

Context {P : Platform}.

Lemma verifyIntermediate_None (c : Certificate) (pool : CertPool) :
  verifyIntermediate c pool = None <-> caPolicy c pool.
Proof.
  unfold verifyIntermediate, verifyCA, validateCertificate, caPolicy.
  destruct (BasicConstraintsValid c), (IsCA c); simpl;
    try (split; [discriminate | intros (? & ? & _); discriminate]).
  destruct (Z.eqb_spec (KeyUsageOf c) KeyUsageCertSign) as [Hk|Hk]; simpl;
    [| split; [discriminate | intros (_ & _ & ? & _); contradiction]].
  destruct (ExtKeyUsageOf c) as [|u us]; simpl;
    [| split; [discriminate | intros (_ & _ & _ & ? & _); discriminate]].
  destruct (Verify c _) as [e|]; split; intros H;
    try discriminate; try reflexivity; try (repeat split; assumption).
  destruct H as (_ & _ & _ & _ & H). discriminate.
Qed.

Lemma verifyRoot_self (c : Certificate) :
  verifyRoot c = verifyIntermediate c (AddCert x509_NewCertPool c).
Proof. reflexivity. Qed.

(** [verifyIntermediates] stops at the first certificate that fails. *)
Lemma verifyIntermediates_fails (cs : list Certificate) :
  forall (i k : nat) (roots pool : CertPool) (c : Certificate) (err : error),
    nth_error cs k = Some c ->
    (forall j cj, j < k -> nth_error cs j = Some cj ->
                  verifyIntermediate cj roots = None) ->
    verifyIntermediate c roots = Some err ->
    verifyIntermediates i cs roots pool
    = Err (fmt_Errorf_w ("chain[" ++ itoa (i + k + 1) ++ "]: ") err).
Proof.
  induction cs as [|c0 cs IH]; intros i k roots pool c err Hk Hbefore Hc.
  - destruct k; discriminate.
  - destruct k as [|k]; simpl in *.
    + injection Hk as ->. rewrite Hc. rewrite Nat.add_0_r. reflexivity.
    + rewrite (Hbefore 0 c0) by (try lia; reflexivity).
      rewrite (IH (S i) k roots (AddCert pool c0) c err Hk); [| | exact Hc].
      * replace (S i + k + 1) with (i + S k + 1) by lia. reflexivity.
      * intros j cj Hj Hnth. apply (Hbefore (S j) cj); [lia | exact Hnth].
Qed.

(** When every certificate passes, the loop returns the pool of all of them,
    added in chain order. *)
Lemma verifyIntermediates_passes (cs : list Certificate) :
  forall (i : nat) (roots pool : CertPool),
    (forall c, In c cs -> verifyIntermediate c roots = None) ->
    verifyIntermediates i cs roots pool = Ok (fold_left AddCert cs pool).
Proof.
  induction cs as [|c0 cs IH]; intros i roots pool Hall; simpl.
  - reflexivity.
  - rewrite (Hall c0) by (left; reflexivity).
    apply IH. intros c Hc. apply Hall. right. exact Hc.
Qed.

Lemma verifyIntermediates_Ok (cs : list Certificate) :
  forall (i : nat) (roots pool p : CertPool),
    verifyIntermediates i cs roots pool = Ok p ->
    forall c, In c cs -> verifyIntermediate c roots = None.
Proof.
  induction cs as [|c0 cs IH]; intros i roots pool p H c Hc; simpl in *.
  - contradiction.
  - destruct (verifyIntermediate c0 roots) eqn:E0; [discriminate |].
    destruct Hc as [<-|Hc]; [exact E0 | eapply IH; eassumption].
Qed.

Lemma verifyIntermediates_no_panic (cs : list Certificate) :
  forall (i : nat) (roots pool : CertPool) (msg : string),
    verifyIntermediates i cs roots pool <> Panic msg.
Proof.
  induction cs as [|c0 cs IH]; intros i roots pool msg; simpl.
  - discriminate.
  - destruct (verifyIntermediate c0 roots); [discriminate | apply IH].
Qed.

(** [verifyChain] on a chain that passes the leaf and intermediate checks
    is the path validation of the leaf. *)
Lemma verifyChain_passes (chain0 : Certificate) (tail : list Certificate)
    (roots : CertPool) :
  validateLeaf chain0 = None ->
  (forall c, In c tail -> verifyIntermediate c roots = None) ->
  verifyChain (chain0 :: tail) roots
  = match Verify chain0 (chainOptions tail roots) with
    | Some err => Err err
    | None => Ok chain0
    end.
Proof.
  intros Hleaf Hall. unfold verifyChain, chainOptions. rewrite Hleaf.
  destruct tail as [|c1 tail]; [reflexivity |].
  change (1 <? List.length (chain0 :: c1 :: tail))%nat with true. cbv iota.
  rewrite (verifyIntermediates_passes (c1 :: tail) 0 roots _ Hall).
  reflexivity.
Qed.

Lemma verifyChain_Ok (chain0 : Certificate) (tail : list Certificate)
    (roots : CertPool) (leaf : Certificate) :
  verifyChain (chain0 :: tail) roots = Ok leaf ->
  leaf = chain0
  /\ validateLeaf chain0 = None
  /\ (forall c, In c tail -> verifyIntermediate c roots = None)
  /\ Verify chain0 (chainOptions tail roots) = None.
Proof.
  intros H.
  assert (Hleaf : validateLeaf chain0 = None).
  { unfold verifyChain in H. destruct (validateLeaf chain0); [discriminate | reflexivity]. }
  assert (Hall : forall c, In c tail -> verifyIntermediate c roots = None).
  { unfold verifyChain in H. rewrite Hleaf in H.
    destruct tail as [|c1 tail]; [intros c [] |].
    change (1 <? List.length (chain0 :: c1 :: tail))%nat with true in H. cbv iota in H.
    destruct (verifyIntermediates 0 (c1 :: tail) roots x509_NewCertPool) eqn:E;
      simpl in H; try discriminate.
    eapply verifyIntermediates_Ok; eassumption. }
  rewrite (verifyChain_passes _ _ _ Hleaf Hall) in H.
  destruct (Verify chain0 (chainOptions tail roots)); [discriminate |].
  injection H as <-. auto.
Qed.

(** C4.  On a chain [chain0 :: tail], [verifyChain] checks the leaf policy
    on [chain0], then the CA policy against the roots on each later
    certificate in order, adding each to the intermediates, then runs path
    validation of [chain0] against the roots with those intermediates.  A
    failing leaf is reported as chain[0]; the first failing intermediate, at
    chain index [i >= 1], is reported as chain[i]; the error of the final
    path validation is returned as it is; on success the result is [chain0]. *)
Theorem verifyChain_spec (chain0 : Certificate) (tail : list Certificate)
    (roots : CertPool) :
  (forall err,
      validateLeaf chain0 = Some err ->
      verifyChain (chain0 :: tail) roots = Err (fmt_Errorf_w "chain[0]: " err))
  /\ (forall i c err,
      validateLeaf chain0 = None ->
      1 <= i ->
      nth_error (chain0 :: tail) i = Some c ->
      (forall j cj, 1 <= j < i -> nth_error (chain0 :: tail) j = Some cj ->
                    verifyIntermediate cj roots = None) ->
      verifyIntermediate c roots = Some err ->
      verifyChain (chain0 :: tail) roots
      = Err (fmt_Errorf_w ("chain[" ++ itoa i ++ "]: ") err))
  /\ (validateLeaf chain0 = None ->
      (forall c, In c tail -> verifyIntermediate c roots = None) ->
      verifyChain (chain0 :: tail) roots
      = match Verify chain0 (chainOptions tail roots) with
        | Some err => Err err
        | None => Ok chain0
        end)
  /\ (forall leaf,
      verifyChain (chain0 :: tail) roots = Ok leaf ->
      leaf = chain0
      /\ validateLeaf chain0 = None
      /\ (forall c, In c tail -> verifyIntermediate c roots = None)
      /\ Verify chain0 (chainOptions tail roots) = None).
Proof.
  split; [| split; [| split]].
  - intros err H. unfold verifyChain. rewrite H. reflexivity.
  - intros i c err Hleaf Hi Hnth Hbefore Hc.
    destruct i as [|k]; [lia |]. simpl in Hnth.
    unfold verifyChain. rewrite Hleaf.
    destruct tail as [|c1 tail]; [destruct k; discriminate |].
    change (1 <? List.length (chain0 :: c1 :: tail))%nat with true. cbv iota.
    rewrite (verifyIntermediates_fails (c1 :: tail) 0 k roots _ c err Hnth).
    + simpl. replace (k + 1) with (S k) by lia. reflexivity.
    + intros j cj Hj Hcj. apply (Hbefore (S j) cj); [lia | exact Hcj].
    + exact Hc.
  - apply verifyChain_passes.
  - apply verifyChain_Ok.
Qed.

(** Only the empty chain makes [verifyChain] panic. *)
Lemma verifyChain_no_panic (chain0 : Certificate) (tail : list Certificate)
    (roots : CertPool) (msg : string) :
  verifyChain (chain0 :: tail) roots <> Panic msg.
Proof.
  unfold verifyChain. destruct (validateLeaf chain0); [discriminate |].
  destruct (1 <? List.length (chain0 :: tail))%nat.
  - pose proof (verifyIntermediates_no_panic tail 0 roots x509_NewCertPool) as Hn.
    destruct (verifyIntermediates 0 tail roots x509_NewCertPool) as [p|e|m];
      simpl; [destruct (Verify chain0 _) | | exfalso; apply (Hn m); reflexivity];
      discriminate.
  - simpl. destruct (Verify chain0 _); discriminate.
Qed.

End ChainValidator.

(* ===================================================================== *)
(** * Properties of the bundle constructor *)
(* ===================================================================== *)

Section TrustBundle.

Context {P : Platform}.

Lemma verifyRoots_fails (roots : list Certificate) :
  forall (i k : nat) (r : Certificate) (err : error),
    nth_error roots k = Some r ->
    (forall j rj, j < k -> nth_error roots j = Some rj -> verifyRoot rj = None) ->
    verifyRoot r = Some err ->
    verifyRoots i roots
    = Err (fmt_Errorf_w ("trust: root[" ++ itoa (i + k) ++ "]: ") err).
Proof.
  induction roots as [|r0 roots IH]; intros i k r err Hk Hbefore Hr.
  - destruct k; discriminate.
  - destruct k as [|k]; simpl in *.
    + injection Hk as ->. rewrite Hr, Nat.add_0_r. reflexivity.
    + rewrite (Hbefore 0 r0) by (try lia; reflexivity).
      rewrite (IH (S i) k r err Hk); [| | exact Hr].
      * replace (S i + k) with (i + S k) by lia. reflexivity.
      * intros j rj Hj Hnth. apply (Hbefore (S j) rj); [lia | exact Hnth].
Qed.

Lemma verifyRoots_Ok (roots : list Certificate) :
  forall (i : nat),
    verifyRoots i roots = Ok tt <->
    (forall r, In r roots -> verifyRoot r = None).
Proof.
  induction roots as [|r0 roots IH]; intros i; simpl.
  - split; [intros _ r [] | reflexivity].
  - destruct (verifyRoot r0) eqn:E0.
    + split; [discriminate |]. intros H.
      rewrite (H r0) in E0 by (left; reflexivity). discriminate.
    + rewrite IH. split.
      * intros H r [<-|Hr]; [exact E0 | apply H; exact Hr].
      * intros H r Hr. apply H. right. exact Hr.
Qed.

Lemma verifyRoots_no_panic (roots : list Certificate) :
  forall (i : nat) (msg : string), verifyRoots i roots <> Panic msg.
Proof.
  induction roots as [|r0 roots IH]; intros i msg; simpl.
  - discriminate.
  - destruct (verifyRoot r0); [discriminate | apply IH].
Qed.

(** [NewBundle] past its two emptiness guards. *)
Lemma NewBundle_cons (c : Certificate) (chain : list Certificate)
    (signer : Signer) (r : Certificate) (roots : list Certificate) :
  NewBundle (c :: chain) signer (r :: roots)
  = (_ <- verifyRoots 0 (r :: roots) ;;
     match verifyChain (c :: chain)
                       (fold_left AddCert (r :: roots) x509_NewCertPool) with
     | Err err => Err (fmt_Errorf_w "trust: " err)
     | Panic msg => Panic msg
     | Ok leaf =>
       Ok {| cert := {| Certificate_ := map Raw (c :: chain);
                        PrivateKey := signer;
                        Leaf := Some leaf |};
             roots := fold_left AddCert (r :: roots) x509_NewCertPool |}
     end).
Proof. reflexivity. Qed.

Lemma NewBundle_empty_chain (signer : Signer) (roots : list Certificate) :
  NewBundle [] signer roots = Err (errors_New "trust: empty chain").
Proof. reflexivity. Qed.

Lemma NewBundle_empty_roots (c : Certificate) (chain : list Certificate)
    (signer : Signer) :
  NewBundle (c :: chain) signer [] = Err (errors_New "trust: empty roots").
Proof. reflexivity. Qed.

(** C2, as the code has it.  [NewBundle] never reads the signer: with
    another signer it returns the same error or panic, or the same bundle
    holding the other signer; a bundle it returns holds the signer it was
    given as its private key, whatever that signer's public key is. *)
Theorem NewBundle_ignores_signer (chain : list Certificate)
    (signer signer' : Signer) (roots : list Certificate) :
  NewBundle chain signer' roots
  = match NewBundle chain signer roots with
    | Ok b => Ok (withPrivateKey b signer')
    | Err err => Err err
    | Panic msg => Panic msg
    end
  /\ (forall b, NewBundle chain signer roots = Ok b ->
                PrivateKey (cert b) = signer).
Proof.
  destruct chain as [|c chain]; [split; [reflexivity | discriminate] |].
  destruct roots as [|r roots]; [split; [reflexivity | discriminate] |].
  rewrite !NewBundle_cons.
  destruct (verifyRoots 0 (r :: roots)) as [[]|e|m]; cbn [bind];
    try (split; [reflexivity | discriminate]).
  match goal with
  | |- context [verifyChain ?ch ?pool] =>
    destruct (verifyChain ch pool) as [leaf|e|m]
  end; try (split; [reflexivity | discriminate]).
  split; [reflexivity |]. intros b Hb. injection Hb as <-. reflexivity.
Qed.

(** C2, counterexample.  The chain leaf, intermediate under the root, with a
    signer whose public key is not the leaf's: [NewBundle] returns a bundle
    that holds this signer. *)
Lemma NewBundle_accepts_unbound_signer :
  exists b : @Bundle Ref.std,
    NewBundle (P := Ref.std) [Ref.leafCert; Ref.intCert] Ref.strangerKey
              [Ref.rootCert] = Ok b
    /\ PrivateKey (cert b) = Ref.strangerKey
    /\ ~ keyBound Ref.strangerKey Ref.leafCert.
Proof.
  eexists. split; [vm_compute; reflexivity |].
  split; [reflexivity |]. unfold keyBound. simpl. discriminate.
Qed.

(** C5.  The CA check ([validateCertificate] then [verifyCA], the body of
    [verifyIntermediate]) passes exactly when basic constraints are valid,
    the certificate is a CA, its key usage is exactly the certSign bit, it
    has no extended key usage, and its path validation against the pool
    passes.  [verifyRoot] is this check against the pool that holds the root
    alone.  [NewBundle] on a non-empty chain reports the first root that
    fails it with that root's index, and returns a bundle only when every
    root passes. *)
Theorem validateCA_spec (c : Certificate) (pool : CertPool) :
  (verifyIntermediate c pool = None <->
   BasicConstraintsValid c = true
   /\ IsCA c = true
   /\ KeyUsageOf c = KeyUsageCertSign
   /\ ExtKeyUsageOf c = []
   /\ Verify c {| Intermediates := None; Roots := Some pool |} = None)
  /\ verifyRoot c = verifyIntermediate c (AddCert x509_NewCertPool c)
  /\ (forall chain0 tail signer roots i r err,
         nth_error roots i = Some r ->
         (forall j rj, j < i -> nth_error roots j = Some rj ->
                       verifyRoot rj = None) ->
         verifyRoot r = Some err ->
         NewBundle (chain0 :: tail) signer roots
         = Err (fmt_Errorf_w ("trust: root[" ++ itoa i ++ "]: ") err))
  /\ (forall chain signer roots b,
         NewBundle chain signer roots = Ok b ->
         forall r, In r roots -> verifyRoot r = None).
Proof.
  split; [apply verifyIntermediate_None |].
  split; [apply verifyRoot_self |]. split.
  - intros chain0 tail signer roots i r err Hnth Hbefore Hr.
    destruct roots as [|r0 roots]; [destruct i; discriminate |].
    rewrite NewBundle_cons.
    rewrite (verifyRoots_fails (r0 :: roots) 0 i r err Hnth Hbefore Hr).
    reflexivity.
  - intros chain signer roots b Hb.
    destruct chain as [|c0 chain]; [discriminate |].
    destruct roots as [|r0 roots]; [discriminate |].
    rewrite NewBundle_cons in Hb.
    destruct (verifyRoots 0 (r0 :: roots)) as [[]|e|m] eqn:E; try discriminate.
    exact (proj1 (verifyRoots_Ok (r0 :: roots) 0) E).
Qed.

(** C7, as the code has it.  An empty chain fails with the empty-chain
    error whatever the signer and the roots, an empty root set included; an
    empty root set fails with the empty-roots error whatever the signer and
    the non-empty chain. *)
Theorem NewBundle_empty :
  (forall signer roots,
      NewBundle [] signer roots = Err (errors_New "trust: empty chain"))
  /\ (forall chain0 tail signer,
         NewBundle (chain0 :: tail) signer []
         = Err (errors_New "trust: empty roots")).
Proof.
  split; intros; reflexivity.
Qed.

(** C7, counterexample.  With the chain and the roots both empty the error
    is the empty-chain one, not the empty-roots one. *)
Lemma NewBundle_empty_chain_first :
  NewBundle (P := Ref.std) [] Ref.leafKey [] = Err (errors_New "trust: empty chain")
  /\ NewBundle (P := Ref.std) [] Ref.leafKey []
     <> Err (errors_New "trust: empty roots").
Proof.
  split; [reflexivity | discriminate].
Qed.


End TrustBundle.

(* ===================================================================== *)
(** * Properties of the TLS configuration *)
(* ===================================================================== *)

Section TLSConfigAdapter.

Context {P : Platform}.

Lemma parseRawCerts_length (rawCerts : list bytes) :
  forall (acc chain : list Certificate),
    parseRawCerts rawCerts acc = Ok chain ->
    List.length chain = List.length acc + List.length rawCerts.
Proof.
  induction rawCerts as [|raw rawCerts IH]; intros acc chain H; simpl in *.
  - injection H as <-. lia.
  - destruct (x509_ParseCertificate raw) as [crt|e]; [| discriminate].
    rewrite (IH _ _ H), length_app. simpl. lia.
Qed.

Lemma parseRawCerts_no_panic (rawCerts : list bytes) :
  forall (acc : list Certificate) (msg : string),
    parseRawCerts rawCerts acc <> Panic msg.
Proof.
  induction rawCerts as [|raw rawCerts IH]; intros acc msg; simpl.
  - discriminate.
  - destruct (x509_ParseCertificate raw); [apply IH | discriminate].
Qed.

(** Every certificate of the chain that [verifyPeerCertificate] validates
    is the parse of the raw certificate at its position. *)
Lemma parseRawCerts_Ok (rawCerts : list bytes) :
  forall (acc chain : list Certificate),
    parseRawCerts rawCerts acc = Ok chain ->
    exists parsed,
      chain = (acc ++ parsed)%list
      /\ Forall2 (fun raw crt => x509_ParseCertificate raw = Val crt)
                 rawCerts parsed.
Proof.
  induction rawCerts as [|raw rawCerts IH]; intros acc chain H; simpl in *.
  - injection H as <-. exists []. rewrite app_nil_r. split; constructor.
  - destruct (x509_ParseCertificate raw) as [crt|e] eqn:E; [| discriminate].
    destruct (IH _ _ H) as (parsed & -> & Hall).
    exists (crt :: parsed). rewrite <- app_assoc. split; [reflexivity |].
    constructor; assumption.
Qed.

(** C3, at the failing input.  With no peer certificate at all, the chain
    handed to [verifyChain] is empty and indexing [chain[0]] panics:
    [verifyPeerCertificate] neither succeeds nor returns an error. *)
Theorem verifyPeerCertificate_empty_panics (b : Bundle)
    (verifiedChains : list (list Certificate)) :
  verifyPeerCertificate b [] verifiedChains
  = Panic "runtime error: index out of range [0] with length 0"
  /\ verifyPeerCertificate b [] verifiedChains <> Ok tt
  /\ (forall err, verifyPeerCertificate b [] verifiedChains <> Err err).
Proof.
  split; [reflexivity |]. split; [| intros err]; discriminate.
Qed.

(** With at least one peer certificate, [verifyPeerCertificate] returns:
    an error, or success after every raw certificate parsed and the parsed
    chain passed [verifyChain] against the roots of the bundle. *)
Lemma verifyPeerCertificate_nonempty (b : Bundle) (raw : bytes)
    (rawCerts : list bytes) (verifiedChains : list (list Certificate)) :
  (exists err, verifyPeerCertificate b (raw :: rawCerts) verifiedChains = Err err)
  \/ (verifyPeerCertificate b (raw :: rawCerts) verifiedChains = Ok tt
      /\ exists chain0 tail,
          Forall2 (fun r crt => x509_ParseCertificate r = Val crt)
                  (raw :: rawCerts) (chain0 :: tail)
          /\ verifyChain (chain0 :: tail) (roots b) = Ok chain0).
Proof.
  unfold verifyPeerCertificate.
  destruct (parseRawCerts (raw :: rawCerts) []) as [chain|e|m] eqn:E.
  - destruct (parseRawCerts_Ok _ _ _ E) as (parsed & -> & Hall).
    simpl app. simpl bind.
    destruct parsed as [|chain0 tail]; [inversion Hall |].
    destruct (verifyChain (chain0 :: tail) (roots b)) as [leaf|e|m] eqn:V; simpl.
    + right. split; [reflexivity |]. exists chain0, tail.
      destruct (verifyChain_Ok _ _ _ _ V) as (-> & _). split; assumption.
    + left. eexists. reflexivity.
    + exfalso. exact (verifyChain_no_panic _ _ _ _ V).
  - left. eexists. reflexivity.
  - exfalso. exact (parseRawCerts_no_panic _ _ _ E).
Qed.

(** C6.  The configuration of a bundle requires a client certificate
    (RequireAnyClientCert), switches the built-in verification off
    (InsecureSkipVerify) and installs [verifyPeerCertificate] of the bundle as
    the verifier, pins the minimum version to TLS 1.3, and offers the bundle's
    own certificate, with no error, to every client hello and every
    certificate request. *)
Theorem TLSConfig_policy (b : Bundle) :
  ClientAuth (TLSConfig b) = RequireAnyClientCert
  /\ requiresClientCert (ClientAuth (TLSConfig b)) = true
  /\ InsecureSkipVerify (TLSConfig b) = true
  /\ VerifyPeerCertificate (TLSConfig b) = verifyPeerCertificate b
  /\ MinVersion (TLSConfig b) = VersionTLS13
  /\ (VersionTLS12 < MinVersion (TLSConfig b))%Z
  /\ (forall hello, GetCertificate (TLSConfig b) hello = Val (cert b))
  /\ (forall hello hello',
         GetCertificate (TLSConfig b) hello = GetCertificate (TLSConfig b) hello')
  /\ (forall req, GetClientCertificate (TLSConfig b) req = Val (cert b)).
Proof.
  unfold TLSConfig, getCertificate, getClientCertificate. simpl.
  repeat split; intros; reflexivity.
Qed.

End TLSConfigAdapter.

(* ===================================================================== *)
(** * Properties of the PEM loaders *)
(* ===================================================================== *)

Section Loaders.

Context {P : Platform}.

Lemma collectCertificates_step (contents der : bytes) :
  collectCertificates contents der
  = match pem_Decode contents with
    | (None, _) => der
    | (Some blk, rest) =>
      if negb (isCertificate blk) then collectCertificates rest der
      else collectCertificates rest (der ++ Bytes blk)%list
    end.
Proof.
  funelim (collectCertificates contents der);
    match goal with e : pem_Decode _ = _ |- _ => rewrite e end; reflexivity.
Qed.

Lemma pemBlocks_step (contents : bytes) :
  pemBlocks contents
  = match pem_Decode contents with
    | (None, _) => []
    | (Some blk, rest) => blk :: pemBlocks rest
    end.
Proof.
  funelim (pemBlocks contents);
    match goal with e : pem_Decode _ = _ |- _ => rewrite e end; reflexivity.
Qed.

(** The first block of a file is what one [pem.Decode] returns. *)
Lemma pemBlocks_head (contents : bytes) :
  hd_error (pemBlocks contents) = fst (pem_Decode contents).
Proof.
  rewrite pemBlocks_step.
  destruct (pem_Decode contents) as [[blk|] rest]; reflexivity.
Qed.

(** [LoadCertificates] hands the parser the bytes of the CERTIFICATE blocks
    of the file, in file order, and nothing of the other blocks. *)
Lemma collectCertificates_blocks (n : nat) :
  forall (contents der : bytes),
    List.length contents < n ->
    collectCertificates contents der
    = (der ++ List.concat (map Bytes (filter isCertificate (pemBlocks contents))))%list.
Proof.
  induction n as [|n IH]; intros contents der Hn; [lia |].
  rewrite collectCertificates_step, pemBlocks_step.
  destruct (pem_Decode contents) as [[blk|] rest] eqn:E.
  - pose proof (pem_Decode_rest _ _ _ E) as Hrest.
    simpl filter. destruct (isCertificate blk); simpl.
    + rewrite IH by lia. rewrite <- app_assoc. reflexivity.
    + apply IH. lia.
  - simpl. rewrite app_nil_r. reflexivity.
Qed.

Lemma collectCertificates_none (contents : bytes) :
  (forall blk, In blk (pemBlocks contents) -> Type_ blk <> "CERTIFICATE") ->
  collectCertificates contents [] = [].
Proof.
  intros Hno.
  rewrite (collectCertificates_blocks (S (List.length contents))) by lia.
  simpl. replace (filter isCertificate (pemBlocks contents)) with (@nil pem_Block);
    [reflexivity |].
  symmetry. induction (pemBlocks contents) as [|blk blks IH]; [reflexivity |].
  simpl. unfold isCertificate at 1.
  destruct (String.eqb_spec (Type_ blk) "CERTIFICATE") as [Heq|_].
  - exfalso. apply (Hno blk); [left; reflexivity | exact Heq].
  - apply IH. intros b Hb. apply Hno. right. exact Hb.
Qed.

Lemma LoadCertificates_no_panic (name : string) (msg : string) :
  LoadCertificates name <> Panic msg.
Proof.
  unfold LoadCertificates. destruct (os_ReadFile name); [| discriminate].
  destruct (x509_ParseCertificates _); discriminate.
Qed.

Lemma LoadPrivateKey_Ok (name : string) (key : Signer) :
  LoadPrivateKey name = Ok key <->
  exists contents blk,
    os_ReadFile name = Val contents
    /\ hd_error (pemBlocks contents) = Some blk
    /\ Type_ blk = "PRIVATE KEY"
    /\ x509_ParsePKCS8PrivateKey (Bytes blk) = Val (SigningKey key).
Proof.
  unfold LoadPrivateKey. split.
  - destruct (os_ReadFile name) as [contents|e] eqn:R; [| discriminate].
    intros H. exists contents.
    pose proof (pemBlocks_head contents) as Hhd.
    destruct (fst (pem_Decode contents)) as [blk|]; [| discriminate].
    exists blk.
    destruct (String.eqb_spec (Type_ blk) "PRIVATE KEY") as [Hty|Hty];
      simpl in H; [| discriminate].
    destruct (x509_ParsePKCS8PrivateKey (Bytes blk)) as [[s|]|e];
      try discriminate.
    injection H as ->. auto.
  - intros (contents & blk & -> & Hhd & Hty & Hkey).
    rewrite pemBlocks_head in Hhd. rewrite Hhd, Hty, Hkey. reflexivity.
Qed.

(** C8, as the code has it.  [LoadPrivateKey] returns a key exactly when the
    file can be read, its first block is a PRIVATE KEY block, and the bytes of
    that block parse as a PKCS #8 key that can sign.  A file with no block, or
    whose first block is of another type, is the error "no private key
    found" naming the file.  What follows the first block is never read. *)
Theorem LoadPrivateKey_first_block (name : string) :
  (forall key,
      LoadPrivateKey name = Ok key <->
      exists contents blk,
        os_ReadFile name = Val contents
        /\ hd_error (pemBlocks contents) = Some blk
        /\ Type_ blk = "PRIVATE KEY"
        /\ x509_ParsePKCS8PrivateKey (Bytes blk) = Val (SigningKey key))
  /\ (forall contents,
         os_ReadFile name = Val contents ->
         pemBlocks contents = [] ->
         LoadPrivateKey name = Err (noPrivateKey name))
  /\ (forall contents blk,
         os_ReadFile name = Val contents ->
         hd_error (pemBlocks contents) = Some blk ->
         Type_ blk <> "PRIVATE KEY" ->
         LoadPrivateKey name = Err (noPrivateKey name)).
Proof.
  split; [intros key; apply LoadPrivateKey_Ok |].
  unfold LoadPrivateKey. split.
  - intros contents -> Hnil.
    pose proof (pemBlocks_head contents) as Hhd. rewrite Hnil in Hhd.
    simpl in Hhd. rewrite <- Hhd. reflexivity.
  - intros contents blk -> Hblk Hty.
    rewrite pemBlocks_head in Hblk. rewrite Hblk.
    destruct (String.eqb_spec (Type_ blk) "PRIVATE KEY");
      [contradiction | reflexivity].
Qed.

Lemma LoadPEM_loaded (certFile keyFile caFile : string)
    (chain : list Certificate) (signer : Signer) (roots : list Certificate) :
  LoadCertificates certFile = Ok chain ->
  LoadPrivateKey keyFile = Ok signer ->
  LoadCertificates caFile = Ok roots ->
  LoadPEM certFile keyFile caFile = NewBundle chain signer roots.
Proof.
  intros Hc Hk Hr. unfold LoadPEM. rewrite Hc, Hk, Hr. reflexivity.
Qed.

(** C9, as the code has it.  When the three files load, [LoadPEM] returns
    what [NewBundle] returns on their contents; an error of [NewBundle] is
    returned as it is, with nothing put before it. *)
Theorem LoadPEM_propagates (certFile keyFile caFile : string)
    (chain : list Certificate) (signer : Signer) (roots : list Certificate) :
  LoadCertificates certFile = Ok chain ->
  LoadPrivateKey keyFile = Ok signer ->
  LoadCertificates caFile = Ok roots ->
  LoadPEM certFile keyFile caFile = NewBundle chain signer roots
  /\ (forall err,
         NewBundle chain signer roots = Err err ->
         LoadPEM certFile keyFile caFile = Err err).
Proof.
  intros Hc Hk Hr.
  rewrite (LoadPEM_loaded _ _ _ _ _ _ Hc Hk Hr). split; [reflexivity | auto].
Qed.

Lemma LoadCertificates_none (certFile : string) (contents : bytes) :
  os_ReadFile certFile = Val contents ->
  (forall blk, In blk (pemBlocks contents) -> Type_ blk <> "CERTIFICATE") ->
  LoadCertificates certFile = Ok [].
Proof.
  intros Hread Hno. unfold LoadCertificates.
  rewrite Hread, (collectCertificates_none contents Hno).
  rewrite x509_ParseCertificates_empty. reflexivity.
Qed.

(** C10.  For a readable file with no CERTIFICATE block, [LoadCertificates]
    returns the empty list and no error.  [LoadPEM] with this file as the
    certificate chain then loads the key file and the roots file and, when
    both load, fails with the empty-chain error of [NewBundle]; it never
    returns an error for the certificate file itself. *)
Theorem LoadCertificates_no_certificate_block (certFile : string)
    (contents : bytes) :
  os_ReadFile certFile = Val contents ->
  (forall blk, In blk (pemBlocks contents) -> Type_ blk <> "CERTIFICATE") ->
  LoadCertificates certFile = Ok []
  /\ (forall keyFile caFile signer roots,
         LoadPrivateKey keyFile = Ok signer ->
         LoadCertificates caFile = Ok roots ->
         LoadPEM certFile keyFile caFile
         = Err (errors_New "trust: empty chain"))
  /\ (forall keyFile caFile,
         LoadPEM certFile keyFile caFile
         = (signer <- LoadPrivateKey keyFile ;;
            roots <- LoadCertificates caFile ;;
            Err (errors_New "trust: empty chain"))).
Proof.
  intros Hread Hno.
  pose proof (LoadCertificates_none certFile contents Hread Hno) as Hnone.
  split; [exact Hnone |]. split.
  - intros keyFile caFile signer roots Hk Hr.
    rewrite (LoadPEM_loaded _ _ _ _ _ _ Hnone Hk Hr). reflexivity.
  - intros keyFile caFile. unfold LoadPEM. rewrite Hnone. reflexivity.
Qed.

End Loaders.

(* ===================================================================== *)
(** * The package on the reference platform *)
(* ===================================================================== *)

(** The credentials of [trustgen] make a bundle, from memory and from
    files. *)
Example NewBundle_good :
  exists b : @Bundle Ref.std,
    NewBundle (P := Ref.std) [Ref.leafCert; Ref.intCert] Ref.leafKey
              [Ref.rootCert] = Ok b
    /\ Leaf (cert b) = Some Ref.leafCert
    /\ keyBound (PrivateKey (cert b)) Ref.leafCert.
Proof.
  eexists. split; [vm_compute; reflexivity |]. split; reflexivity.
Qed.

(** The negative cases of [TestNewBundle]. *)
Example NewBundle_root_is_not_a_CA :
  NewBundle (P := Ref.std) [Ref.leafCert; Ref.intCert] Ref.leafKey
            [Ref.withIsCA Ref.rootCert false]
  = Err (fmt_Errorf_w "trust: root[0]: " (errors_New "not a CA")).
Proof. vm_compute. reflexivity. Qed.

Example NewBundle_root_basic_constraints_invalid :
  NewBundle (P := Ref.std) [Ref.leafCert; Ref.intCert] Ref.leafKey
            [Ref.withBasicConstraintsValid Ref.rootCert false]
  = Err (fmt_Errorf_w "trust: root[0]: "
                      (errors_New "basic constraints invalid")).
Proof. vm_compute. reflexivity. Qed.

Example NewBundle_root_key_usage :
  NewBundle (P := Ref.std) [Ref.leafCert; Ref.intCert] Ref.leafKey
            [Ref.withKeyUsage Ref.rootCert KeyUsageDigitalSignature]
  = Err (fmt_Errorf_w "trust: root[0]: " (errors_New "invalid key usage")).
Proof. vm_compute. reflexivity. Qed.

Example NewBundle_root_extended_key_usage :
  NewBundle (P := Ref.std) [Ref.leafCert; Ref.intCert] Ref.leafKey
            [Ref.withExtKeyUsage Ref.rootCert [ExtKeyUsageClientAuth]]
  = Err (fmt_Errorf_w "trust: root[0]: "
                      (errors_New "invalid extended key usage")).
Proof. vm_compute. reflexivity. Qed.

Example NewBundle_intermediate_is_not_a_CA :
  NewBundle (P := Ref.std) [Ref.leafCert; Ref.withIsCA Ref.intCert false]
            Ref.leafKey [Ref.rootCert]
  = Err (fmt_Errorf_w "trust: "
           (fmt_Errorf_w "chain[1]: " (errors_New "not a CA"))).
Proof. vm_compute. reflexivity. Qed.

Example NewBundle_leaf_is_a_CA :
  NewBundle (P := Ref.std) [Ref.withIsCA Ref.leafCert true; Ref.intCert]
            Ref.leafKey [Ref.rootCert]
  = Err (fmt_Errorf_w "trust: "
           (fmt_Errorf_w "chain[0]: " (errors_New "is a CA"))).
Proof. vm_compute. reflexivity. Qed.

(** A later position is reported with its own index, and the message reads
    as Go prints it. *)
Example verifyChain_reports_index :
  verifyChain (P := Ref.std) [Ref.leafCert; Ref.intCert; Ref.leafCert]
              [Ref.rootCert]
  = Err (fmt_Errorf_w "chain[2]: " (errors_New "not a CA"))
  /\ Error (fmt_Errorf_w "chain[2]: " (errors_New "not a CA"))
     = "chain[2]: not a CA".
Proof. split; vm_compute; reflexivity. Qed.

(** The leaf without its intermediate: every policy rule passes and the
    path validation fails; its error comes back as it is. *)
Example verifyChain_path_validation_failure :
  verifyChain (P := Ref.std) [Ref.leafCert] [Ref.rootCert]
  = Err (errors_New "x509: certificate signed by unknown authority").
Proof. vm_compute. reflexivity. Qed.

(** The handshake callback on the chain a peer with these credentials
    presents. *)
Example verifyPeerCertificate_good :
  forall b : @Bundle Ref.std,
    roots b = [Ref.rootCert] ->
    verifyPeerCertificate b [Raw Ref.leafCert; Raw Ref.intCert] [] = Ok tt.
Proof.
  intros b Hb. unfold verifyPeerCertificate. rewrite Hb.
  vm_compute. reflexivity.
Qed.

Example LoadPEM_good :
  LoadPEM (P := Ref.std) "cert.pem" "key.pem" "ca.pem"
  = NewBundle (P := Ref.std) [Ref.leafCert; Ref.intCert] Ref.leafKey
              [Ref.rootCert].
Proof. vm_compute. reflexivity. Qed.

(** C8, counterexample.  A key file that holds a PRIVATE KEY block and then
    a CERTIFICATE block, and a key file that holds two PRIVATE KEY blocks,
    both load with no error. *)
Lemma LoadPrivateKey_ignores_rest :
  (os_ReadFile (Platform := Ref.std) "key-then-cert.pem"
   = Val (Ref.leafKeyBlock ++ Ref.certBlock Ref.leafCert)%list
   /\ map Type_ (pemBlocks (P := Ref.std)
                           (Ref.leafKeyBlock ++ Ref.certBlock Ref.leafCert)%list)
      = ["PRIVATE KEY"; "CERTIFICATE"]
   /\ ~ keyFile_spec (P := Ref.std)
                     (Ref.leafKeyBlock ++ Ref.certBlock Ref.leafCert)%list
   /\ LoadPrivateKey (P := Ref.std) "key-then-cert.pem" = Ok Ref.leafKey)
  /\ (os_ReadFile (Platform := Ref.std) "two-keys.pem"
      = Val (Ref.leafKeyBlock ++ Ref.leafKeyBlock)%list
      /\ map Type_ (pemBlocks (P := Ref.std)
                              (Ref.leafKeyBlock ++ Ref.leafKeyBlock)%list)
         = ["PRIVATE KEY"; "PRIVATE KEY"]
      /\ ~ keyFile_spec (P := Ref.std)
                        (Ref.leafKeyBlock ++ Ref.leafKeyBlock)%list
      /\ LoadPrivateKey (P := Ref.std) "two-keys.pem" = Ok Ref.leafKey).
Proof.
  split; (split; [reflexivity |]); (split; [vm_compute; reflexivity |]);
    (split; [| vm_compute; reflexivity]);
    intros (blk & Hdec & _); vm_compute in Hdec; discriminate Hdec.
Qed.

(** C9, witness: the three files load, and [LoadPEM] returns the error of
    [NewBundle] on their contents. *)
Lemma LoadPEM_propagates_witness :
  LoadPEM (P := Ref.std) "cert.pem" "key.pem" "leaf-as-ca.pem"
  = Err (fmt_Errorf_w "trust: root[0]: " (errors_New "not a CA")).
Proof.
  apply (LoadPEM_propagates (P := Ref.std) "cert.pem" "key.pem" "leaf-as-ca.pem"
           [Ref.leafCert; Ref.intCert] Ref.leafKey [Ref.leafCert]);
    vm_compute; reflexivity.
Defined.

(** C9, counterexample.  The roots file holds the leaf certificate, which is
    not a CA: [NewBundle] fails on root 0, and [LoadPEM] returns that very
    error, whose message starts with none of the three file names. *)
Lemma LoadPEM_error_names_no_file :
  NewBundle (P := Ref.std) [Ref.leafCert; Ref.intCert] Ref.leafKey [Ref.leafCert]
  = Err (fmt_Errorf_w "trust: root[0]: " (errors_New "not a CA"))
  /\ LoadPEM (P := Ref.std) "cert.pem" "key.pem" "leaf-as-ca.pem"
     = Err (fmt_Errorf_w "trust: root[0]: " (errors_New "not a CA"))
  /\ Error (fmt_Errorf_w "trust: root[0]: " (errors_New "not a CA"))
     = "trust: root[0]: not a CA"
  /\ String.prefix "cert.pem" "trust: root[0]: not a CA" = false
  /\ String.prefix "key.pem" "trust: root[0]: not a CA" = false
  /\ String.prefix "leaf-as-ca.pem" "trust: root[0]: not a CA" = false.
Proof.
  repeat split; vm_compute; reflexivity.
Qed.

(** C10, witness: a file that holds one PUBLIC KEY block as the chain
    file. *)
Lemma LoadCertificates_no_certificate_block_witness :
  LoadCertificates (P := Ref.std) "no-cert.pem" = Ok []
  /\ LoadPEM (P := Ref.std) "no-cert.pem" "key.pem" "ca.pem"
     = Err (errors_New "trust: empty chain").
Proof.
  destruct (LoadCertificates_no_certificate_block (P := Ref.std)
              "no-cert.pem" Ref.publicKeyBlock eq_refl) as (H1 & H2 & _).
  - intros blk Hin. vm_compute in Hin. destruct Hin as [<-|[]]. discriminate.
  - split; [exact H1 |].
    apply (H2 "key.pem" "ca.pem" Ref.leafKey [Ref.rootCert]);
      vm_compute; reflexivity.
Defined.

(* ===================================================================== *)
(** * Further properties of the chain validator and the bundle *)
(* ===================================================================== *)


Lemma KeyUsageCertSign_bits (n : Z) :
  (0 <= n)%Z -> Z.testbit KeyUsageCertSign n = (n =? 5)%Z.
Proof.
  intros Hn. unfold KeyUsageCertSign.
  rewrite Z.shiftl_1_l, Z.pow2_bits_eqb by lia. apply Z.eqb_sym.
Qed.

(** The result of [validateLeaf] reads the extended key usages as a set. *)
Lemma scanExtKeyUsage_ext (us us' : list ExtKeyUsage) :
  (forall u, In u us <-> In u us') ->
  scanExtKeyUsage us = scanExtKeyUsage us'.
Proof.
  intros Hsame.
  destruct (scanExtKeyUsage_spec us) as [Hc Hs].
  destruct (scanExtKeyUsage_spec us') as [Hc' Hs'].
  rewrite <- (Hsame ExtKeyUsageClientAuth), <- Hc in Hc'.
  rewrite <- (Hsame ExtKeyUsageServerAuth), <- Hs in Hs'.
  destruct (scanExtKeyUsage us) as [a b], (scanExtKeyUsage us') as [a' b'].
  simpl in *. f_equal.
  - destruct a, a'; try reflexivity;
      [symmetry; apply Hc' | apply Hc']; reflexivity.
  - destruct b, b'; try reflexivity;
      [symmetry; apply Hs' | apply Hs']; reflexivity.
Qed.

(** X7.  Order and repetition of the extended key usages do not matter.  Two
    certificates with the same flags, the same key usage and the same set of
    extended key usages get the same answer from [validateLeaf]. *)
Theorem validateLeaf_usage_set (c c' : Certificate) :
  BasicConstraintsValid c = BasicConstraintsValid c' ->
  IsCA c = IsCA c' ->
  KeyUsageOf c = KeyUsageOf c' ->
  (forall u, In u (ExtKeyUsageOf c) <-> In u (ExtKeyUsageOf c')) ->
  validateLeaf c = validateLeaf c'.
Proof.
  intros Hb Hi Hk Hu. unfold validateLeaf, validateCertificate.
  rewrite Hb, Hi, Hk, (scanExtKeyUsage_ext _ _ Hu). reflexivity.
Qed.

(** X7, witness on the reference platform. *)
Lemma validateLeaf_usage_set_witness :
  validateLeaf Ref.leafCert
  = validateLeaf
      (Ref.withExtKeyUsage Ref.leafCert
         [ExtKeyUsageServerAuth; ExtKeyUsageClientAuth; ExtKeyUsageServerAuth]).
Proof.
  apply validateLeaf_usage_set; try reflexivity.
  intros u. simpl. tauto.
Defined.

Section MoreChainValidator.

Context {P : Platform}.

(** X6.  No extra key-usage bits.  A certificate that passes the leaf check
    has bit 0 (digitalSignature) of its key usage set and every other bit
    clear; one that passes the CA check has bit 5 (certSign) set and every
    other bit clear. *)
Theorem keyUsage_exact_bits (c : Certificate) (pool : CertPool) :
  (validateLeaf c = None ->
   forall n, (0 <= n)%Z -> Z.testbit (KeyUsageOf c) n = (n =? 0)%Z)
  /\ (verifyIntermediate c pool = None ->
      forall n, (0 <= n)%Z -> Z.testbit (KeyUsageOf c) n = (n =? 5)%Z).
Proof.
  split.
  - intros H n Hn. apply validateLeaf_None in H.
    destruct H as (_ & _ & -> & _). apply KeyUsageDigitalSignature_bits, Hn.
  - intros H n Hn. apply verifyIntermediate_None in H.
    destruct H as (_ & _ & -> & _). apply KeyUsageCertSign_bits, Hn.
Qed.

(** X5.  Role separation.  A certificate that passes the leaf check fails the
    CA check against every pool, and the root check, with "not a CA"; one
    that passes the CA check fails the leaf check with "is a CA". *)
Theorem leaf_and_CA_exclusive (c : Certificate) :
  (validateLeaf c = None ->
   (forall pool, verifyIntermediate c pool = Some (errors_New "not a CA"))
   /\ verifyRoot c = Some (errors_New "not a CA"))
  /\ (forall pool, verifyIntermediate c pool = None ->
                   validateLeaf c = Some (errors_New "is a CA")).
Proof.
  split.
  - intros H. apply validateLeaf_None in H. destruct H as (Hb & Hi & _).
    unfold verifyRoot, verifyIntermediate, verifyCA, validateCertificate.
    rewrite Hb, Hi. split; [intros pool |]; reflexivity.
  - intros pool H. apply verifyIntermediate_None in H.
    destruct H as (Hb & Hi & _).
    unfold validateLeaf, validateCertificate. rewrite Hb, Hi. reflexivity.
Qed.

(** [verifyChain] never panics on a chain [NewBundle] lets through, and
    [NewBundle] adds no panic of its own. *)
Lemma NewBundle_not_Panic (chain : list Certificate) (signer : Signer)
    (rootCerts : list Certificate) (msg : string) :
  NewBundle chain signer rootCerts <> Panic msg.
Proof.
  destruct chain as [|c chain]; [discriminate |].
  destruct rootCerts as [|r rootCerts]; [discriminate |].
  rewrite NewBundle_cons.
  pose proof (verifyRoots_no_panic (r :: rootCerts) 0) as Hr.
  destruct (verifyRoots 0 (r :: rootCerts)) as [[]|e|m]; cbn [bind];
    [| discriminate | exfalso; apply (Hr m); reflexivity].
  match goal with
  | |- context [verifyChain ?ch ?pool] =>
    pose proof (verifyChain_no_panic c chain pool) as Hc;
    destruct (verifyChain ch pool) as [leaf|e|m]
  end; [discriminate | discriminate |].
  exfalso. apply (Hc m). reflexivity.
Qed.



Lemma NewBundle_Ok_policies (chain : list Certificate) (signer : Signer)
    (rootCerts : list Certificate) (b : Bundle) :
  NewBundle chain signer rootCerts = Ok b ->
  exists chain0 tail,
    chain = chain0 :: tail
    /\ rootCerts <> []
    /\ (forall r, In r rootCerts -> caPolicy r (AddCert x509_NewCertPool r))
    /\ leafPolicy chain0
    /\ (forall c, In c tail ->
                  caPolicy c (fold_left AddCert rootCerts x509_NewCertPool))
    /\ Verify chain0
         (chainOptions tail (fold_left AddCert rootCerts x509_NewCertPool))
       = None
    /\ b = {| cert := {| Certificate_ := map Raw chain;
                         PrivateKey := signer;
                         Leaf := Some chain0 |};
              roots := fold_left AddCert rootCerts x509_NewCertPool |}.
Proof.
  intros Hb.
  destruct chain as [|c0 chain]; [discriminate |].
  destruct rootCerts as [|r0 rootCerts]; [discriminate |].
  rewrite NewBundle_cons in Hb.
  destruct (verifyRoots 0 (r0 :: rootCerts)) as [[]|e|m] eqn:Er;
    try discriminate.
  cbn [bind] in Hb.
  match type of Hb with
  | context [verifyChain ?ch ?pool] =>
    destruct (verifyChain ch pool) as [leaf|e|m] eqn:Ec
  end; try discriminate.
  injection Hb as <-.
  destruct (verifyChain_Ok _ _ _ _ Ec) as (-> & Hleaf & Hall & Hv).
  exists c0, chain. split; [reflexivity |]. split; [discriminate |].
  split.
  { intros r Hr. apply verifyIntermediate_None. rewrite <- verifyRoot_self.
    exact (proj1 (verifyRoots_Ok (r0 :: rootCerts) 0) Er r Hr). }
  split; [apply validateLeaf_None; exact Hleaf |].
  split; [intros c Hc; apply verifyIntermediate_None, Hall, Hc |].
  split; [exact Hv | reflexivity].
Qed.

Lemma NewBundle_policies_Ok (chain0 : Certificate) (tail : list Certificate)
    (signer : Signer) (rootCerts : list Certificate) :
  rootCerts <> [] ->
  (forall r, In r rootCerts -> caPolicy r (AddCert x509_NewCertPool r)) ->
  leafPolicy chain0 ->
  (forall c, In c tail ->
             caPolicy c (fold_left AddCert rootCerts x509_NewCertPool)) ->
  Verify chain0
    (chainOptions tail (fold_left AddCert rootCerts x509_NewCertPool)) = None ->
  NewBundle (chain0 :: tail) signer rootCerts
  = Ok {| cert := {| Certificate_ := map Raw (chain0 :: tail);
                     PrivateKey := signer;
                     Leaf := Some chain0 |};
          roots := fold_left AddCert rootCerts x509_NewCertPool |}.
Proof.
  intros Hne Hroots Hleaf Htail Hv.
  destruct rootCerts as [|r0 rootCerts]; [contradiction |].
  rewrite NewBundle_cons.
  assert (Er : verifyRoots 0 (r0 :: rootCerts) = Ok tt).
  { apply verifyRoots_Ok. intros r Hr. rewrite verifyRoot_self.
    apply verifyIntermediate_None, Hroots, Hr. }
  rewrite Er. cbn [bind].
  rewrite verifyChain_passes.
  - rewrite Hv. reflexivity.
  - apply validateLeaf_None, Hleaf.
  - intros c Hc. apply verifyIntermediate_None, Htail, Hc.
Qed.

(** X3.  The invariants of a bundle.  [NewBundle] returns a bundle exactly
    when the chain and the roots are non-empty, every root passes the CA
    policy against the pool holding itself alone, [chain[0]] passes the leaf
    policy, every later certificate passes the CA policy against the pool of
    all the roots, and path validation of [chain[0]] passes with the later
    certificates as intermediates.  The bundle then holds the raw bytes of
    the chain in order, the signer, [chain[0]] as leaf, and that pool. *)
Theorem NewBundle_Ok_iff (chain : list Certificate) (signer : Signer)
    (rootCerts : list Certificate) (b : Bundle) :
  NewBundle chain signer rootCerts = Ok b <->
  exists chain0 tail,
    chain = chain0 :: tail
    /\ rootCerts <> []
    /\ (forall r, In r rootCerts -> caPolicy r (AddCert x509_NewCertPool r))
    /\ leafPolicy chain0
    /\ (forall c, In c tail ->
                  caPolicy c (fold_left AddCert rootCerts x509_NewCertPool))
    /\ Verify chain0
         (chainOptions tail (fold_left AddCert rootCerts x509_NewCertPool))
       = None
    /\ b = {| cert := {| Certificate_ := map Raw chain;
                         PrivateKey := signer;
                         Leaf := Some chain0 |};
              roots := fold_left AddCert rootCerts x509_NewCertPool |}.
Proof.
  split; [apply NewBundle_Ok_policies |].
  intros (chain0 & tail & -> & Hne & Hroots & Hleaf & Htail & Hv & ->).
  apply NewBundle_policies_Ok; assumption.
Qed.

(** X4.  The leaf of a bundle is none of its roots and none of its
    intermediates, and no later certificate of its chain passes the leaf
    check. *)
Theorem NewBundle_leaf_apart (chain0 : Certificate) (tail : list Certificate)
    (signer : Signer) (rootCerts : list Certificate) (b : Bundle) :
  NewBundle (chain0 :: tail) signer rootCerts = Ok b ->
  ~ In chain0 rootCerts
  /\ ~ In chain0 tail
  /\ (forall c, In c tail -> validateLeaf c = Some (errors_New "is a CA")).
Proof.
  intros Hb. apply NewBundle_Ok_policies in Hb.
  destruct Hb as (c0 & tl & Heq & _ & Hroots & Hleaf & Htail & _).
  injection Heq as <- <-.
  destruct Hleaf as (_ & Hca & _).
  split; [| split].
  - intros Hin. destruct (Hroots _ Hin) as (_ & Hca' & _). congruence.
  - intros Hin. destruct (Htail _ Hin) as (_ & Hca' & _). congruence.
  - intros c Hc. destruct (Htail _ Hc) as (Hb' & Hca' & _).
    unfold validateLeaf, validateCertificate. rewrite Hb', Hca'. reflexivity.
Qed.

End MoreChainValidator.

(** X4, witness on the reference platform. *)
Lemma NewBundle_leaf_apart_witness :
  ~ In Ref.leafCert [Ref.rootCert]
  /\ ~ In Ref.leafCert [Ref.intCert]
  /\ (forall c, In c [Ref.intCert] ->
                validateLeaf c = Some (errors_New "is a CA")).
Proof.
  eapply (NewBundle_leaf_apart (P := Ref.std) Ref.leafCert [Ref.intCert]
            Ref.leafKey [Ref.rootCert]).
  vm_compute. reflexivity.
Defined.

(* ===================================================================== *)
(** * Further properties of the handshake callback *)
(* ===================================================================== *)

Section MoreTLSConfigAdapter.

Context {P : Platform}.

Lemma parseRawCerts_all (rawCerts : list bytes) (parsed : list Certificate) :
  Forall2 (fun raw crt => x509_ParseCertificate raw = Val crt) rawCerts parsed ->
  forall acc, parseRawCerts rawCerts acc = Ok (acc ++ parsed)%list.
Proof.
  induction 1 as [|raw crt rawCerts parsed Hraw _ IH]; intros acc; simpl.
  - rewrite app_nil_r. reflexivity.
  - rewrite Hraw, IH, <- app_assoc. reflexivity.
Qed.

Lemma parseRawCerts_fails (rawCerts : list bytes) :
  forall (k : nat) (raw : bytes) (err : error) (acc : list Certificate),
    nth_error rawCerts k = Some raw ->
    (forall j rj, j < k -> nth_error rawCerts j = Some rj ->
                  exists crt, x509_ParseCertificate rj = Val crt) ->
    x509_ParseCertificate raw = Fail err ->
    parseRawCerts rawCerts acc = Err err.
Proof.
  induction rawCerts as [|r0 rawCerts IH]; intros k raw err acc Hk Hbefore Hraw.
  - destruct k; discriminate.
  - destruct k as [|k]; simpl in *.
    + injection Hk as ->. rewrite Hraw. reflexivity.
    + destruct (Hbefore 0 r0) as (crt & ->); [lia | reflexivity |].
      apply (IH k raw err _ Hk); [| exact Hraw].
      intros j rj Hj Hnth. apply (Hbefore (S j) rj); [lia | exact Hnth].
Qed.


(** X8.  What the handshake callback accepts.  [verifyPeerCertificate]
    returns nil exactly when there is at least one raw certificate, every
    raw certificate parses, the first parsed certificate passes the leaf
    policy, every later one passes the CA policy against the roots of the
    bundle, and path validation of the first passes with the later ones as
    intermediates.  The chains argument and the bundle's own certificate
    play no part. *)
Theorem verifyPeerCertificate_Ok_iff (b : Bundle) (rawCerts : list bytes)
    (verifiedChains : list (list Certificate)) :
  verifyPeerCertificate b rawCerts verifiedChains = Ok tt <->
  exists chain0 tail,
    Forall2 (fun raw crt => x509_ParseCertificate raw = Val crt)
            rawCerts (chain0 :: tail)
    /\ leafPolicy chain0
    /\ (forall c, In c tail -> caPolicy c (roots b))
    /\ Verify chain0 (chainOptions tail (roots b)) = None.
Proof.
  split.
  - intros H. destruct rawCerts as [|raw rawCerts]; [discriminate |].
    destruct (verifyPeerCertificate_nonempty b raw rawCerts verifiedChains)
      as [(err & Herr) | (_ & chain0 & tail & Hall & Hv)]; [congruence |].
    destruct (verifyChain_Ok _ _ _ _ Hv) as (_ & Hleaf & Htail & Hpath).
    exists chain0, tail. split; [exact Hall |].
    split; [apply validateLeaf_None, Hleaf |].
    split; [intros c Hc; apply verifyIntermediate_None, Htail, Hc | exact Hpath].
  - intros (chain0 & tail & Hall & Hleaf & Htail & Hpath).
    unfold verifyPeerCertificate.
    rewrite (parseRawCerts_all _ _ Hall []). cbn [bind app].
    rewrite verifyChain_passes.
    + rewrite Hpath. reflexivity.
    + apply validateLeaf_None, Hleaf.
    + intros c Hc. apply verifyIntermediate_None, Htail, Hc.
Qed.

(** X9.  A raw certificate that does not parse ends the callback with the
    parser's error, unchanged and without a position, whatever follows it
    and whatever the certificates before it are. *)
Theorem verifyPeerCertificate_parse_error (b : Bundle) (rawCerts : list bytes)
    (verifiedChains : list (list Certificate)) (k : nat) (raw : bytes)
    (err : error) :
  nth_error rawCerts k = Some raw ->
  (forall j rj, j < k -> nth_error rawCerts j = Some rj ->
                exists crt, x509_ParseCertificate rj = Val crt) ->
  x509_ParseCertificate raw = Fail err ->
  verifyPeerCertificate b rawCerts verifiedChains = Err err.
Proof.
  intros Hk Hbefore Hraw. unfold verifyPeerCertificate.
  rewrite (parseRawCerts_fails rawCerts k raw err [] Hk Hbefore Hraw).
  reflexivity.
Qed.


End MoreTLSConfigAdapter.

(** X9, witness on the reference platform. *)
Lemma verifyPeerCertificate_parse_error_witness :
  verifyPeerCertificate RefGen.bundle [Raw Ref.leafCert; [x77]; [x78]] []
  = Err (errors_New "x509: malformed certificate").
Proof.
  apply (verifyPeerCertificate_parse_error (P := Ref.std) RefGen.bundle
           [Raw Ref.leafCert; [x77]; [x78]] [] 1 [x77]).
  - reflexivity.
  - intros j rj Hj Hnth. destruct j as [|j]; [| lia].
    injection Hnth as <-. exists Ref.leafCert. reflexivity.
  - reflexivity.
Defined.


(* ===================================================================== *)
(** * Further properties of the PEM loaders *)
(* ===================================================================== *)

Section MoreLoaders.

Context {P : Platform}.

(** X1.  [LoadCertificates] hands the certificate parser the bytes of the
    CERTIFICATE blocks of the file, concatenated in file order; blocks of any
    other type contribute nothing.  A read error and a parse error come back
    unchanged. *)
Theorem LoadCertificates_blocks (name : string) :
  LoadCertificates name
  = match os_ReadFile name with
    | Fail err => Err err
    | Val contents =>
      lift (x509_ParseCertificates
              (List.concat
                 (map Bytes (filter isCertificate (pemBlocks contents)))))
    end.
Proof.
  unfold LoadCertificates. destruct (os_ReadFile name) as [contents|e];
    [| reflexivity].
  rewrite (collectCertificates_blocks (S (List.length contents))) by lia.
  reflexivity.
Qed.

Definition notSigner : string :=
  "interface conversion: key is not crypto.Signer: missing method Sign".

Lemma LoadPrivateKey_Panic (name msg : string) :
  LoadPrivateKey name = Panic msg <->
  exists contents blk,
    os_ReadFile name = Val contents
    /\ hd_error (pemBlocks contents) = Some blk
    /\ Type_ blk = "PRIVATE KEY"
    /\ x509_ParsePKCS8PrivateKey (Bytes blk) = Val OtherKey
    /\ msg = notSigner.
Proof.
  unfold LoadPrivateKey. split.
  - destruct (os_ReadFile name) as [contents|e] eqn:R; [| discriminate].
    intros H. exists contents.
    pose proof (pemBlocks_head contents) as Hhd.
    destruct (fst (pem_Decode contents)) as [blk|]; [| discriminate].
    exists blk.
    destruct (String.eqb_spec (Type_ blk) "PRIVATE KEY") as [Hty|Hty];
      simpl in H; [| discriminate].
    destruct (x509_ParsePKCS8PrivateKey (Bytes blk)) as [[s|]|e];
      try discriminate.
    injection H as <-. auto.
  - intros (contents & blk & -> & Hhd & Hty & Hkey & ->).
    rewrite pemBlocks_head in Hhd. rewrite Hhd, Hty, Hkey. reflexivity.
Qed.

(** X11.  The one panic of the loaders.  [LoadPrivateKey] panics exactly when
    the first block of the file is a PRIVATE KEY block whose bytes parse as a
    PKCS #8 key that is not a [crypto.Signer]; [LoadPEM] panics exactly when
    the certificate file loads and [LoadPrivateKey] panics on the key file.
    [LoadCertificates] and [NewBundle] never panic. *)
Theorem LoadPEM_Panic_iff (certFile keyFile caFile msg : string) :
  (LoadPrivateKey keyFile = Panic msg <->
   exists contents blk,
     os_ReadFile keyFile = Val contents
     /\ hd_error (pemBlocks contents) = Some blk
     /\ Type_ blk = "PRIVATE KEY"
     /\ x509_ParsePKCS8PrivateKey (Bytes blk) = Val OtherKey
     /\ msg = notSigner)
  /\ (LoadPEM certFile keyFile caFile = Panic msg <->
      (exists chain, LoadCertificates certFile = Ok chain)
      /\ LoadPrivateKey keyFile = Panic msg).
Proof.
  split; [apply LoadPrivateKey_Panic |].
  unfold LoadPEM. split.
  - pose proof (LoadCertificates_no_panic certFile) as Hc.
    destruct (LoadCertificates certFile) as [chain|e|m]; cbn [bind];
      [| discriminate | intros _; exfalso; apply (Hc m); reflexivity].
    destruct (LoadPrivateKey keyFile) as [signer|e|m]; cbn [bind];
      [| discriminate
       | intros H; injection H as ->; split; [eexists |]; reflexivity].
    pose proof (LoadCertificates_no_panic caFile) as Hr.
    destruct (LoadCertificates caFile) as [rootCerts|e|m]; cbn [bind];
      [| discriminate | intros _; exfalso; apply (Hr m); reflexivity].
    intros H. exfalso. exact (NewBundle_not_Panic _ _ _ _ H).
  - intros ((chain & ->) & ->). reflexivity.
Qed.

(** X12.  Which error [LoadPEM] returns.  The files are loaded in the order
    chain, key, roots, and the first load that fails decides: its error is
    returned unchanged and [NewBundle] is not called.  [LoadPEM] returns a
    bundle exactly when all three load and [NewBundle] returns that bundle on
    what they hold. *)
Theorem LoadPEM_order (certFile keyFile caFile : string) :
  (forall err,
      LoadCertificates certFile = Err err ->
      LoadPEM certFile keyFile caFile = Err err)
  /\ (forall chain err,
         LoadCertificates certFile = Ok chain ->
         LoadPrivateKey keyFile = Err err ->
         LoadPEM certFile keyFile caFile = Err err)
  /\ (forall chain signer err,
         LoadCertificates certFile = Ok chain ->
         LoadPrivateKey keyFile = Ok signer ->
         LoadCertificates caFile = Err err ->
         LoadPEM certFile keyFile caFile = Err err)
  /\ (forall b,
         LoadPEM certFile keyFile caFile = Ok b <->
         exists chain signer rootCerts,
           LoadCertificates certFile = Ok chain
           /\ LoadPrivateKey keyFile = Ok signer
           /\ LoadCertificates caFile = Ok rootCerts
           /\ NewBundle chain signer rootCerts = Ok b).
Proof.
  unfold LoadPEM. repeat split.
  - intros err ->. reflexivity.
  - intros chain err -> ->. reflexivity.
  - intros chain signer err -> -> ->. reflexivity.
  - destruct (LoadCertificates certFile) as [chain|e|m]; try discriminate.
    destruct (LoadPrivateKey keyFile) as [signer|e|m]; try discriminate.
    destruct (LoadCertificates caFile) as [rootCerts|e|m]; try discriminate.
    cbn [bind]. intros H. exists chain, signer, rootCerts. auto.
  - intros (chain & signer & rootCerts & -> & -> & -> & H). exact H.
Qed.

End MoreLoaders.

(** The key file with a key that cannot sign, on the reference platform. *)
Example LoadPEM_exchange_key_panics :
  LoadPEM (P := RefGen.std) "cert.pem" "exchange-key.pem" "ca.pem"
  = Panic notSigner
  /\ LoadPrivateKey (P := RefGen.std) "broken-key.pem"
     = Err (errors_New "x509: failed to parse private key").
Proof. split; vm_compute; reflexivity. Qed.

(* ===================================================================== *)
(** * Properties of the PEM encoders *)
(* ===================================================================== *)

Section Encoders.

Context {P : Platform} {E : Encoder}.

Definition certificateBlock (c : Certificate) : pem_Block :=
  {| Type_ := "CERTIFICATE"; Bytes := Raw c |}.

(** [pem.Decode] returns the block that [pem.Encode] wrote, and what
    follows it. *)
Definition decodesEncoded : Prop :=
  forall blk data rest,
    pem_Encode blk = Val data ->
    pem_Decode (data ++ rest)%list = (Some blk, rest).

Lemma pem_Decode_nil : fst (pem_Decode []) = None.
Proof.
  destruct (pem_Decode []) as [[blk|] rest] eqn:Hd; [| reflexivity].
  apply pem_Decode_rest in Hd. simpl in Hd. lia.
Qed.

Lemma pemBlocks_nil : pemBlocks [] = [].
Proof.
  rewrite pemBlocks_step. pose proof pem_Decode_nil as H.
  destruct (pem_Decode []) as [[blk|] rest]; [discriminate | reflexivity].
Qed.

Lemma encodeCertificates_Ok (certs : list Certificate) :
  forall (b data : bytes),
    encodeCertificates certs b = Ok data <->
    exists encoded,
      Forall2 (fun c e => pem_Encode (certificateBlock c) = Val e)
              certs encoded
      /\ data = (b ++ List.concat encoded)%list.
Proof.
  induction certs as [|c certs IH]; intros b data; simpl.
  - split.
    + intros H. injection H as <-. exists []. rewrite app_nil_r.
      split; constructor.
    + intros (encoded & Hall & ->). inversion Hall. simpl.
      rewrite app_nil_r. reflexivity.
  - fold (certificateBlock c).
    destruct (pem_Encode (certificateBlock c)) as [e|err] eqn:He.
    + rewrite IH. split.
      * intros (encoded & Hall & ->). exists (e :: encoded). split.
        -- constructor; assumption.
        -- simpl. rewrite app_assoc. reflexivity.
      * intros (encoded & Hall & ->). inversion Hall as [|? e' ? es He' Hall']; subst.
        rewrite He in He'. injection He' as <-.
        exists es. split; [exact Hall' |]. simpl. rewrite app_assoc. reflexivity.
    + split; [discriminate |].
      intros (encoded & Hall & _). inversion Hall as [|? e' ? es He' _]; subst.
      rewrite He in He'. discriminate.
Qed.

Lemma encodeCertificates_Panic (certs : list Certificate) :
  forall (b : bytes) (msg : string),
    encodeCertificates certs b = Panic msg <->
    exists k c err,
      nth_error certs k = Some c
      /\ (forall j cj, j < k -> nth_error certs j = Some cj ->
                       exists e, pem_Encode (certificateBlock cj) = Val e)
      /\ pem_Encode (certificateBlock c) = Fail err
      /\ msg = Error err.
Proof.
  induction certs as [|c0 certs IH]; intros b msg; simpl.
  - split; [discriminate |]. intros (k & c & err & Hk & _). destruct k; discriminate.
  - fold (certificateBlock c0).
    destruct (pem_Encode (certificateBlock c0)) as [e|err0] eqn:He.
    + rewrite IH. split.
      * intros (k & c & err & Hk & Hbefore & Hc & ->).
        exists (S k), c, err. repeat split; try assumption.
        intros j cj Hj Hnth. destruct j as [|j]; simpl in Hnth.
        -- injection Hnth as <-. eexists. exact He.
        -- apply (Hbefore j cj); [lia | exact Hnth].
      * intros (k & c & err & Hk & Hbefore & Hc & ->).
        destruct k as [|k]; simpl in Hk.
        -- injection Hk as <-. rewrite He in Hc. discriminate.
        -- exists k, c, err. repeat split; try assumption.
           intros j cj Hj Hnth. apply (Hbefore (S j) cj); [lia | exact Hnth].
    + split.
      * intros H. injection H as <-. exists 0, c0, err0.
        repeat split; try assumption; try reflexivity. intros j cj Hj. lia.
      * intros (k & c & err & Hk & Hbefore & Hc & ->).
        destruct k as [|k]; simpl in Hk.
        -- injection Hk as <-. rewrite He in Hc. injection Hc as <-. reflexivity.
        -- destruct (Hbefore 0 c0) as (e & He'); [lia | reflexivity |].
           rewrite He in He'. discriminate.
Qed.

(** X13.  What [PEMEncodeCertificates] writes.  It returns the encodings of
    the certificates as CERTIFICATE blocks over their raw bytes, concatenated
    in argument order, exactly when every block encodes; it panics with the
    message of the first encoding error otherwise, and never returns an
    error. *)
Theorem PEMEncodeCertificates_spec (certs : list Certificate) :
  (forall data,
      PEMEncodeCertificates certs = Ok data <->
      exists encoded,
        Forall2 (fun c e => pem_Encode (certificateBlock c) = Val e)
                certs encoded
        /\ data = List.concat encoded)
  /\ (forall msg,
         PEMEncodeCertificates certs = Panic msg <->
         exists k c err,
           nth_error certs k = Some c
           /\ (forall j cj, j < k -> nth_error certs j = Some cj ->
                            exists e, pem_Encode (certificateBlock cj) = Val e)
           /\ pem_Encode (certificateBlock c) = Fail err
           /\ msg = Error err)
  /\ (forall err, PEMEncodeCertificates certs <> Err err).
Proof.
  unfold PEMEncodeCertificates. split; [| split].
  - intros data. apply (encodeCertificates_Ok certs [] data).
  - intros msg. apply encodeCertificates_Panic.
  - generalize (@nil byte). induction certs as [|c certs IH]; intros b err; simpl.
    + discriminate.
    + destruct (pem_Encode _); [apply IH | discriminate].
Qed.

Lemma pemBlocks_encoded (certs : list Certificate) :
  decodesEncoded ->
  forall (encoded : list bytes) (rest : bytes),
    Forall2 (fun c e => pem_Encode (certificateBlock c) = Val e) certs encoded ->
    pemBlocks (List.concat encoded ++ rest)%list
    = (map certificateBlock certs ++ pemBlocks rest)%list.
Proof.
  intros Hdec encoded rest Hall.
  induction Hall as [|c e certs encoded He _ IH]; [reflexivity |].
  simpl List.concat. rewrite <- app_assoc, pemBlocks_step.
  rewrite (Hdec _ _ _ He). simpl. rewrite IH. reflexivity.
Qed.

Lemma filter_certificateBlock (certs : list Certificate) :
  List.concat (map Bytes (filter isCertificate (map certificateBlock certs)))
  = List.concat (map Raw certs).
Proof.
  induction certs as [|c certs IH]; [reflexivity |].
  simpl. rewrite IH. reflexivity.
Qed.

Lemma LoadCertificates_encoded (name : string) (certs : list Certificate)
    (data : bytes) :
  decodesEncoded ->
  PEMEncodeCertificates certs = Ok data ->
  os_ReadFile name = Val data ->
  LoadCertificates name
  = lift (x509_ParseCertificates (List.concat (map Raw certs))).
Proof.
  intros Hdec Henc Hread. unfold LoadCertificates. rewrite Hread.
  rewrite (collectCertificates_blocks (S (List.length data))) by lia.
  apply (encodeCertificates_Ok certs [] data) in Henc.
  destruct Henc as (encoded & Hall & ->). simpl.
  rewrite <- (app_nil_r (List.concat encoded)).
  rewrite (pemBlocks_encoded certs Hdec encoded [] Hall), pemBlocks_nil.
  rewrite app_nil_r, filter_certificateBlock. reflexivity.
Qed.

Lemma LoadPrivateKey_encoded (name : string) (key : Signer) (der data : bytes) :
  decodesEncoded ->
  x509_MarshalPKCS8PrivateKey key = Val der ->
  pem_Encode {| Type_ := "PRIVATE KEY"; Bytes := der |} = Val data ->
  x509_ParsePKCS8PrivateKey der = Val (SigningKey key) ->
  os_ReadFile name = Val data ->
  PEMEncodePrivateKey key = Ok data /\ LoadPrivateKey name = Ok key.
Proof.
  intros Hdec Hm He Hp Hread. split.
  - unfold PEMEncodePrivateKey, pem_EncodeToMemory. rewrite Hm, He. reflexivity.
  - unfold LoadPrivateKey. rewrite Hread.
    rewrite <- (app_nil_r data), (Hdec _ _ _ He). simpl. rewrite Hp.
    reflexivity.
Qed.

(** X14.  Certificates round trip.  When decoding returns what encoding wrote,
    a file holding the output of [PEMEncodeCertificates] loads as what the
    certificate parser makes of the raw certificates concatenated in order;
    when that is the certificates themselves, [LoadCertificates] returns
    them, in order. *)
Theorem PEMEncodeCertificates_roundtrip (name : string)
    (certs : list Certificate) (data : bytes) :
  decodesEncoded ->
  PEMEncodeCertificates certs = Ok data ->
  os_ReadFile name = Val data ->
  x509_ParseCertificates (List.concat (map Raw certs)) = Val certs ->
  LoadCertificates name = Ok certs.
Proof.
  intros Hdec Henc Hread Hparse.
  rewrite (LoadCertificates_encoded name certs data Hdec Henc Hread), Hparse.
  reflexivity.
Qed.

(** X15.  The key round trips.  When decoding returns what encoding wrote and
    the PKCS #8 parser returns the key that was marshalled, a file holding
    the output of [PEMEncodePrivateKey] loads as that key. *)
Theorem PEMEncodePrivateKey_roundtrip (name : string) (key : Signer)
    (der data : bytes) :
  decodesEncoded ->
  x509_MarshalPKCS8PrivateKey key = Val der ->
  pem_Encode {| Type_ := "PRIVATE KEY"; Bytes := der |} = Val data ->
  x509_ParsePKCS8PrivateKey der = Val (SigningKey key) ->
  os_ReadFile name = Val data ->
  PEMEncodePrivateKey key = Ok data /\ LoadPrivateKey name = Ok key.
Proof.
  apply LoadPrivateKey_encoded.
Qed.

(** X16.  A bundle round trips through files.  With the chain, the key and the
    roots written by the encoders to three files, [LoadPEM] on the files is
    [NewBundle] on the chain, the key and the roots. *)
Theorem LoadPEM_encoded (certFile keyFile caFile : string)
    (chain rootCerts : list Certificate) (key : Signer)
    (certPEM keyPEM caPEM der : bytes) :
  decodesEncoded ->
  PEMEncodeCertificates chain = Ok certPEM ->
  PEMEncodeCertificates rootCerts = Ok caPEM ->
  x509_MarshalPKCS8PrivateKey key = Val der ->
  pem_Encode {| Type_ := "PRIVATE KEY"; Bytes := der |} = Val keyPEM ->
  os_ReadFile certFile = Val certPEM ->
  os_ReadFile keyFile = Val keyPEM ->
  os_ReadFile caFile = Val caPEM ->
  x509_ParseCertificates (List.concat (map Raw chain)) = Val chain ->
  x509_ParseCertificates (List.concat (map Raw rootCerts)) = Val rootCerts ->
  x509_ParsePKCS8PrivateKey der = Val (SigningKey key) ->
  LoadPEM certFile keyFile caFile = NewBundle chain key rootCerts.
Proof.
  intros Hdec Hc Hr Hm Hk Rc Rk Rr Pc Pr Pk.
  apply LoadPEM_loaded.
  - rewrite (LoadCertificates_encoded certFile chain certPEM Hdec Hc Rc), Pc.
    reflexivity.
  - exact (proj2 (LoadPrivateKey_encoded keyFile key der keyPEM Hdec Hm Hk Pk Rk)).
  - rewrite (LoadCertificates_encoded caFile rootCerts caPEM Hdec Hr Rr), Pr.
    reflexivity.
Qed.

End Encoders.

(** On the reference platform decoding returns what encoding wrote. *)
Lemma RefGen_decodesEncoded : @decodesEncoded Ref.std RefGen.encoder.
Proof.
  intros blk data rest He. simpl in He. unfold RefGen.Encode in He.
  destruct (RefGen.blockTag (Type_ blk)) as [tag|] eqn:Htag; [| discriminate].
  destruct (Byte.of_nat (List.length (Bytes blk))) as [len|] eqn:Hlen;
    [| discriminate].
  injection He as <-. apply Byte.to_of_nat in Hlen.
  assert (Hty : Ref.blockType tag = Some (Type_ blk)).
  { unfold RefGen.blockTag in Htag.
    destruct (String.eqb_spec (Type_ blk) "CERTIFICATE") as [->|_];
      [injection Htag as <-; reflexivity |].
    destruct (String.eqb_spec (Type_ blk) "PRIVATE KEY") as [->|_];
      [injection Htag as <-; reflexivity |].
    destruct (String.eqb_spec (Type_ blk) "PUBLIC KEY") as [->|_];
      [injection Htag as <-; reflexivity | discriminate]. }
  change (pem_Decode ((tag :: len :: Bytes blk) ++ rest)%list)
    with (Ref.Decode (tag :: len :: (Bytes blk ++ rest))%list).
  unfold Ref.Decode. rewrite Hty, Hlen.
  replace (List.length (Bytes blk) <=? List.length (Bytes blk ++ rest))%nat
    with true by (symmetry; apply Nat.leb_le; rewrite length_app; lia).
  rewrite firstn_app, Nat.sub_diag, firstn_all, app_nil_r.
  rewrite skipn_app, Nat.sub_diag, skipn_all. simpl.
  destruct blk. reflexivity.
Qed.

(** X14, witness on the reference platform. *)
Lemma PEMEncodeCertificates_roundtrip_witness :
  LoadCertificates (P := Ref.std) "cert.pem" = Ok [Ref.leafCert; Ref.intCert].
Proof.
  apply (PEMEncodeCertificates_roundtrip (P := Ref.std) (E := RefGen.encoder)
           "cert.pem" [Ref.leafCert; Ref.intCert]
           (Ref.certBlock Ref.leafCert ++ Ref.certBlock Ref.intCert)%list
           RefGen_decodesEncoded); reflexivity.
Defined.

(** X15, witness on the reference platform. *)
Lemma PEMEncodePrivateKey_roundtrip_witness :
  PEMEncodePrivateKey (E := RefGen.encoder) Ref.leafKey = Ok Ref.leafKeyBlock
  /\ LoadPrivateKey (P := Ref.std) "key.pem" = Ok Ref.leafKey.
Proof.
  apply (PEMEncodePrivateKey_roundtrip (P := Ref.std) (E := RefGen.encoder)
           "key.pem" Ref.leafKey [x01; xa2] Ref.leafKeyBlock
           RefGen_decodesEncoded); reflexivity.
Defined.

(** X16, witness on the reference platform. *)
Lemma LoadPEM_encoded_witness :
  LoadPEM (P := Ref.std) "cert.pem" "key.pem" "ca.pem"
  = NewBundle (P := Ref.std) [Ref.leafCert; Ref.intCert] Ref.leafKey
              [Ref.rootCert].
Proof.
  apply (LoadPEM_encoded (P := Ref.std) (E := RefGen.encoder)
           "cert.pem" "key.pem" "ca.pem"
           [Ref.leafCert; Ref.intCert] [Ref.rootCert] Ref.leafKey
           (Ref.certBlock Ref.leafCert ++ Ref.certBlock Ref.intCert)%list
           Ref.leafKeyBlock (Ref.certBlock Ref.rootCert) [x01; xa2]
           RefGen_decodesEncoded); reflexivity.
Defined.

(* ===================================================================== *)
(** * The bundle and its configuration together *)
(* ===================================================================== *)

Section BundleConfig.

Context {P : Platform}.

(** X17.  What a bundle offers is what was validated.  For a bundle made by
    [NewBundle], both certificate callbacks of its configuration return the
    raw bytes of the whole chain in chain order, the signer that was given,
    and [chain[0]] as the parsed leaf. *)
Theorem TLSConfig_offers_validated_chain (chain : list Certificate)
    (signer : Signer) (rootCerts : list Certificate) (b : Bundle)
    (hello : tls_ClientHelloInfo) (req : tls_CertificateRequestInfo) :
  NewBundle chain signer rootCerts = Ok b ->
  GetCertificate (TLSConfig b) hello
  = Val {| Certificate_ := map Raw chain;
           PrivateKey := signer;
           Leaf := hd_error chain |}
  /\ GetClientCertificate (TLSConfig b) req = GetCertificate (TLSConfig b) hello
  /\ List.length (Certificate_ (cert b)) = List.length chain
  /\ 0 < List.length (Certificate_ (cert b)).
Proof.
  intros Hb. apply NewBundle_Ok_policies in Hb.
  destruct Hb as (chain0 & tail & -> & _ & _ & _ & _ & _ & ->).
  simpl. rewrite length_map. repeat split; lia.
Qed.

End BundleConfig.

(** X17, witness on the reference platform. *)
Lemma TLSConfig_offers_validated_chain_witness :
  GetCertificate (TLSConfig RefGen.bundle)
                 {| ServerName := "other.example"; SupportedVersions := [] |}
  = Val {| Certificate_ := [Raw Ref.leafCert; Raw Ref.intCert];
           PrivateKey := Ref.leafKey;
           Leaf := Some Ref.leafCert |}.
Proof.
  apply (TLSConfig_offers_validated_chain (P := Ref.std)
           [Ref.leafCert; Ref.intCert] Ref.leafKey [Ref.rootCert] RefGen.bundle
           {| ServerName := "other.example"; SupportedVersions := [] |}
           {| AcceptableCAs := []; Version := VersionTLS13 |}).
  vm_compute. reflexivity.
Defined.
